(** * WalletView (src/qt/walletview.cpp): a shallow embedding

    [WalletView] is the stacked widget that holds the wallet's tab pages,
    routes user actions to dialogs and forwards model notifications.  The
    embedding keeps three things apart:

    - the object's own state (its data members and the current widget of
      the [QStackedWidget] base class) is a record, [WalletView];
    - [QProgressDialog] objects live on a heap ([gmap loc QProgressDialog]):
      the member [progressDialog] is a pointer into it, and the user
      cancelling a dialog is a change of the heap between two calls;
    - every call on a collaborator (child page, dialog, wallet, codec, file
      system) and every emitted signal is appended to a trace of [Event]s.

    Dereferencing a null pointer is undefined behaviour in the source; the
    embedding stops with [Crash NullDereference].

    [std::string], [QString] and [QByteArray] are all [string] here: the
    conversions [toStdString], [fromStdString] and [toLocal8Bit] are the
    identity of the model. *)

From Stdlib Require Import ZArith Ascii String.
From stdpp Require Import base option list gmap strings.

Open Scope Z_scope.

(** ** Plain data *)

(** Heap addresses of objects whose identity matters. *)
Definition loc := positive.

(** The widgets registered with [addWidget] in the constructor (lines
    74-92); [setCurrentWidget] is only ever called with one of them. *)
Inductive Page :=
| overviewPage
| transactionsPage
| infinitynodeListPage
| statsWindow
| faqWindow
| stakePage.

(** The two address-book windows built in the constructor (lines 71-72). *)
Inductive AddressBook :=
| usedSendingAddressesPage
| usedReceivingAddressesPage.

(** [CClientUIInterface::MessageBoxFlags], the two values used here. *)
Inductive MsgStyle := MSG_ERROR | MSG_INFORMATION.

(** Modelled from the spec: [WalletModel::EncryptionStatus] is declared in
    walletmodel.h, which is not part of the excerpt; the statuses are the
    three the specification of [unlockWallet] tells apart. *)
Inductive EncryptionStatus := Unencrypted | Locked | Unlocked.

(** [AskPassphraseDialog::Mode], the values used in this file. *)
Inductive AskPassphraseMode := Encrypt | Unlock | ChangePass.

Inductive WindowModality := NonModal | WindowModal | ApplicationModal.

(** Qt item roles (qnamespace.h). *)
Definition Qt_DisplayRole : Z := 0.
Definition Qt_EditRole : Z := 2.

(** A [QVariant] is only ever converted, so it is the record of the two
    conversions the source uses; [toULongLong] is an unsigned 64-bit value. *)
Record QVariant := {
  toString : string;
  toULongLong : Z
}.

(** [qint64 amount = ....toULongLong()]: the implicit conversion of an
    unsigned 64-bit value to a signed one. *)
Definition to_qint64 (u : Z) : Z := (u + 2 ^ 63) mod 2 ^ 64 - 2 ^ 63.

(** A file as the operating system serves it: the size seen by
    [GetFileSize] and the bytes handed to a [std::ifstream]. *)
Record File := {
  file_size : Z;
  file_data : string
}.

(** What the desktop returns to the calls made by [gotoLoadPSBT] and
    [backupWallet]: the clipboard, the answers of the two file choosers
    (empty when the user cancels) and the file system. *)
Record Env := {
  clipboard_text : string;
  getOpenFileName : string;
  getSaveFileName : string;
  files : gmap string File
}.

(** Modelled from the spec: [GetFileSize] comes from util/system, which is
    not part of the excerpt.  The size check of [gotoLoadPSBT] is specified
    on the size of the selected file, so the helper is the file's size
    capped at [max]; a path that cannot be opened counts no byte. *)
Definition GetFileSize (fs : gmap string File) (path : string) (max : Z) : Z :=
  match fs !! path with
  | Some f => Z.min (file_size f) max
  | None => 0
  end.

(** [std::ifstream in(path, binary)] read to the end: the bytes of the
    file, nothing when the stream fails to open. *)
Definition read_ifstream (fs : gmap string File) (path : string) : string :=
  match fs !! path with
  | Some f => file_data f
  | None => ""
  end.

(** ** Collaborators declared outside this file *)

(** Types, constants and pure functions that walletview.cpp uses but that
    are declared in headers outside the excerpt.  They are parameters of
    the whole development. *)
Class Collaborators := {
  PartiallySignedTransaction : Type;
  QModelIndex : Type;
  (** [QObject::tr], the installed translation. *)
  tr : string → string;
  (** [QString::arg] with one string argument. *)
  QString_arg : string → string → string;
  (** [GUIUtil::HtmlEscape]. *)
  HtmlEscape : string → string;
  (** [DecodeBase64(raw, &invalid)]: the decoded bytes and the flag. *)
  DecodeBase64 : string → string * bool;
  (** [DecodeRawPSBT(psbtx, data, error)]: the transaction when it returns
      true, the error string when it returns false. *)
  DecodeRawPSBT : string → PartiallySignedTransaction + string;
  (** psbt.h *)
  MAX_FILE_SIZE_PSBT : Z;
  (** [TransactionTableModel::ColumnIndex] and the item roles. *)
  TransactionTableModel_Date : Z;
  TransactionTableModel_Type : Z;
  TransactionTableModel_Amount : Z;
  TransactionTableModel_AddressRole : Z;
  TransactionTableModel_LabelRole : Z
}.

Section WalletViewModel.
Context `{X : Collaborators}.

(** ** The model objects, as the answers they give *)

Record TransactionTableModel := {
  processingQueuedTransactions : bool;
  index : Z → Z → QModelIndex → QModelIndex;
  data : QModelIndex → Z → QVariant
}.

(** [QModelIndex::data(role)] asks the model that made the index. *)
Definition QModelIndex_data (ttm : TransactionTableModel)
    (i : QModelIndex) (role : Z) : QVariant :=
  data ttm i role.

Record OptionsModel := { getDisplayUnit : Z }.

(** [interfaces::Wallet]; [abortRescan] has no result and is an [Event]. *)
Record Wallet := { backupWallet_result : string → bool }.

(** [getTransactionTableModel] may return null (line 191 tests it).
    [getOptionsModel], [wallet] and [ClientModel::node] are used unchecked
    by the source and give valid objects: whether they can be null is a
    matter of those classes, not of this file. *)
Record WalletModel := {
  getEncryptionStatus : EncryptionStatus;
  getTransactionTableModel : option TransactionTableModel;
  getOptionsModel : OptionsModel;
  getWalletName : string;
  wallet : Wallet
}.

Record Node := { isInitialBlockDownload : bool }.
Record ClientModel := { node : Node }.

Record WalletFrame := { currentWalletView : option loc }.

(** ** Heap objects *)

(** A [QProgressDialog] as the properties this file writes and reads.  A
    setter is a field write; [wasCanceled] is written by the user. *)
Record QProgressDialog := {
  labelText : string;
  cancelButtonText : string;
  minimum : Z;
  maximum : Z;
  polished : bool;
  windowModality : WindowModality;
  autoClose : bool;
  value : Z;
  wasCanceled : bool;
  closed : bool;
  deleteLater : bool
}.

(** [new QProgressDialog(label, cancel, min, max)] with Qt's defaults. *)
Definition QProgressDialog_new (label cancel : string) (lo hi : Z) : QProgressDialog :=
  {| labelText := label; cancelButtonText := cancel;
     minimum := lo; maximum := hi;
     polished := false; windowModality := NonModal; autoClose := true;
     value := -1; wasCanceled := false; closed := false; deleteLater := false |}.

Definition PolishProgressDialog (d : QProgressDialog) : QProgressDialog :=
  {| labelText := labelText d; cancelButtonText := cancelButtonText d;
     minimum := minimum d; maximum := maximum d;
     polished := true; windowModality := windowModality d;
     autoClose := autoClose d; value := value d;
     wasCanceled := wasCanceled d; closed := closed d;
     deleteLater := deleteLater d |}.

Definition setWindowModality (m : WindowModality) (d : QProgressDialog) : QProgressDialog :=
  {| labelText := labelText d; cancelButtonText := cancelButtonText d;
     minimum := minimum d; maximum := maximum d;
     polished := polished d; windowModality := m;
     autoClose := autoClose d; value := value d;
     wasCanceled := wasCanceled d; closed := closed d;
     deleteLater := deleteLater d |}.

Definition setAutoClose (b : bool) (d : QProgressDialog) : QProgressDialog :=
  {| labelText := labelText d; cancelButtonText := cancelButtonText d;
     minimum := minimum d; maximum := maximum d;
     polished := polished d; windowModality := windowModality d;
     autoClose := b; value := value d;
     wasCanceled := wasCanceled d; closed := closed d;
     deleteLater := deleteLater d |}.

Definition setValue (n : Z) (d : QProgressDialog) : QProgressDialog :=
  {| labelText := labelText d; cancelButtonText := cancelButtonText d;
     minimum := minimum d; maximum := maximum d;
     polished := polished d; windowModality := windowModality d;
     autoClose := autoClose d; value := n;
     wasCanceled := wasCanceled d; closed := closed d;
     deleteLater := deleteLater d |}.

Definition close (d : QProgressDialog) : QProgressDialog :=
  {| labelText := labelText d; cancelButtonText := cancelButtonText d;
     minimum := minimum d; maximum := maximum d;
     polished := polished d; windowModality := windowModality d;
     autoClose := autoClose d; value := value d;
     wasCanceled := wasCanceled d; closed := true;
     deleteLater := deleteLater d |}.

Definition set_deleteLater (d : QProgressDialog) : QProgressDialog :=
  {| labelText := labelText d; cancelButtonText := cancelButtonText d;
     minimum := minimum d; maximum := maximum d;
     polished := polished d; windowModality := windowModality d;
     autoClose := autoClose d; value := value d;
     wasCanceled := wasCanceled d; closed := closed d;
     deleteLater := true |}.

(** ** The object and the world around it *)

Record WalletView := {
  this : loc;
  clientModel : option ClientModel;
  walletModel : option WalletModel;
  walletFrame : option WalletFrame;
  progressDialog : option loc;
  currentWidget : Page
}.

Record State := {
  view : WalletView;
  dialogs : gmap loc QProgressDialog
}.

(** ** Calls on collaborators and emitted signals *)

Inductive Event :=
(* signals of WalletView *)
| message (title text : string) (style : MsgStyle)
| incomingTransaction (date : string) (displayUnit : Z) (amount : Z)
    (type address label walletName : string)
| encryptionStatusChanged
(* child pages *)
| OverviewPage_showTransactionWidget (b : bool)
| OverviewPage_showToolBoxWidget (b : bool)
| ReceiveRequestDialog_show
| SendCoinsDialog_setAddress (addr : string)
| SendCoinsDialog_show
| GUIUtil_bringToFront (w : AddressBook)
(* desktop *)
| QClipboard_text
| GUIUtil_getOpenFileName (caption dir filter : string)
| GUIUtil_getSaveFileName (caption dir filter : string)
| GetFileSize_call (path : string) (max : Z)
| ifstream_read (path : string)
(* codec *)
| DecodeBase64_call (raw : string)
| DecodeRawPSBT_call (bytes : string)
(* PSBTOperationsDialog *)
| PSBTOperationsDialog_new (wm : option WalletModel) (cm : option ClientModel)
| PSBTOperationsDialog_openWithPSBT (psbtx : PartiallySignedTransaction)
| PSBTOperationsDialog_setAttribute_WA_DeleteOnClose
| PSBTOperationsDialog_exec
(* AskPassphraseDialog *)
| AskPassphraseDialog_new (mode : AskPassphraseMode)
| AskPassphraseDialog_setModel (wm : option WalletModel)
| AskPassphraseDialog_exec
(* wallet *)
| Wallet_backupWallet (filename : string)
| Wallet_abortRescan
| WalletModel_setWalletLocked (locked : bool).

(** ** The monad of a slot: state, trace and undefined behaviour *)

Inductive Fault := NullDereference | DanglingPointer.

Inductive Result (A : Type) :=
| Ok (a : A) (s : State) (evs : list Event)
| Crash (f : Fault).
Arguments Ok {A} a s evs.
Arguments Crash {A} f.

Definition M (A : Type) : Type := State → Result A.

Definition ret {A} (a : A) : M A := λ s, Ok a s [].

Definition bind {A B} (m : M A) (k : A → M B) : M B :=
  λ s, match m s with
       | Ok a s1 e1 =>
           match k a s1 with
           | Ok b s2 e2 => Ok b s2 (e1 ++ e2)
           | Crash f => Crash f
           end
       | Crash f => Crash f
       end.

Definition emit (e : Event) : M unit := λ s, Ok tt s [e].
Definition crash {A} (f : Fault) : M A := λ _, Crash f.
Definition get_view : M WalletView := λ s, Ok (view s) s [].
Definition put_view (v : WalletView) : M unit :=
  λ s, Ok tt {| view := v; dialogs := dialogs s |} [].
Definition get_dialogs : M (gmap loc QProgressDialog) := λ s, Ok (dialogs s) s [].
Definition put_dialogs (h : gmap loc QProgressDialog) : M unit :=
  λ s, Ok tt {| view := view s; dialogs := h |} [].

#[global] Instance M_ret : MRet M := @ret.
#[global] Instance M_bind : MBind M := λ A B k m, bind m k.

(** Member writes. *)
Definition set_currentWidget (w : Page) (v : WalletView) : WalletView :=
  {| this := this v; clientModel := clientModel v; walletModel := walletModel v;
     walletFrame := walletFrame v; progressDialog := progressDialog v;
     currentWidget := w |}.

Definition set_progressDialog (p : option loc) (v : WalletView) : WalletView :=
  {| this := this v; clientModel := clientModel v; walletModel := walletModel v;
     walletFrame := walletFrame v; progressDialog := p;
     currentWidget := currentWidget v |}.

(** [QStackedWidget::setCurrentWidget]; every [Page] is in the stack. *)
Definition setCurrentWidget (w : Page) : M unit :=
  v ← get_view; put_view (set_currentWidget w v).

(** [new T(...)]: a fresh address holding the constructed object. *)
Definition new_dialog (d : QProgressDialog) : M loc :=
  h ← get_dialogs;
  let p := fresh (dom h) in
  put_dialogs (<[p := d]> h);;
  mret p.

(** [p->f(...)] for a setter [f]. *)
Definition call_dialog (p : loc) (f : QProgressDialog → QProgressDialog) : M unit :=
  h ← get_dialogs;
  match h !! p with
  | Some d => put_dialogs (<[p := f d]> h)
  | None => crash DanglingPointer
  end.

(** [p->g()] for a getter [g]. *)
Definition ask_dialog {A} (p : loc) (g : QProgressDialog → A) : M A :=
  h ← get_dialogs;
  match h !! p with
  | Some d => mret (g d)
  | None => crash DanglingPointer
  end.

(** [walletFrame && walletFrame->currentWalletView() == this] *)
Definition is_current_view (v : WalletView) : bool :=
  match walletFrame v with
  | Some wf => bool_decide (currentWalletView wf = Some (this v))
  | None => false
  end.

Definition newline : string := String "010"%char "".

(** File-chooser filters; the parenthesised glob is spelled in two pieces. *)
Definition filter_psbt : string := "Partially Signed Transaction (" +:+ "*.psbt)".
Definition filter_dat : string := " (" +:+ "*.dat)".

(** ** The slots of WalletView *)

(** Lines 184-202. *)
Definition processNewTransaction (parent : QModelIndex) (start end_ : Z) : M unit :=
  v ← get_view;
  match walletModel v, clientModel v with
  | Some wm, Some cm =>
      if isInitialBlockDownload (node cm) then mret tt
      else
        match getTransactionTableModel wm with
        | None => mret tt
        | Some ttm =>
            if processingQueuedTransactions ttm then mret tt
            else
              let date := toString (QModelIndex_data ttm
                            (index ttm start TransactionTableModel_Date parent) Qt_DisplayRole) in
              let amount := to_qint64 (toULongLong (QModelIndex_data ttm
                            (index ttm start TransactionTableModel_Amount parent) Qt_EditRole)) in
              let type := toString (QModelIndex_data ttm
                            (index ttm start TransactionTableModel_Type parent) Qt_DisplayRole) in
              let idx := index ttm start 0 parent in
              let address := toString (data ttm idx TransactionTableModel_AddressRole) in
              let label := HtmlEscape (toString (data ttm idx TransactionTableModel_LabelRole)) in
              emit (incomingTransaction date (getDisplayUnit (getOptionsModel wm)) amount
                      type address label (HtmlEscape (getWalletName wm)))
        end
  | _, _ => mret tt
  end.

(** Lines 204-209. *)
Definition gotoOverviewPage : M unit :=
  emit (OverviewPage_showTransactionWidget true);;
  emit (OverviewPage_showToolBoxWidget false);;
  setCurrentWidget overviewPage.

(** Lines 211-216. *)
Definition gotoHomePage : M unit :=
  emit (OverviewPage_showTransactionWidget false);;
  emit (OverviewPage_showToolBoxWidget true);;
  setCurrentWidget overviewPage.

(** Lines 218-221. *)
Definition hideTransactionWidget : M unit :=
  emit (OverviewPage_showTransactionWidget false).

(** Lines 223-252. *)
Definition gotoHistoryPage : M unit := setCurrentWidget transactionsPage.
Definition gotoInfinitynodePage : M unit := setCurrentWidget infinitynodeListPage.
Definition gotoStatsPage : M unit := setCurrentWidget statsWindow.
Definition gotoFaqPage : M unit := setCurrentWidget faqWindow.
Definition gotoStakePage : M unit := setCurrentWidget stakePage.

(** Lines 254-261. *)
Definition gotoReceiveCoinsPage : M unit :=
  setCurrentWidget overviewPage;;
  v ← get_view;
  if is_current_view v then emit ReceiveRequestDialog_show
  else mret tt.

(** Lines 263-272. *)
Definition gotoSendCoinsPage (addr : string) : M unit :=
  setCurrentWidget overviewPage;;
  v ← get_view;
  if is_current_view v then
    (if bool_decide (addr = "") then mret tt
     else emit (SendCoinsDialog_setAddress addr));;
    emit SendCoinsDialog_show
  else mret tt.

(** Lines 306-342. *)
Definition gotoLoadPSBT (E : Env) (from_clipboard : bool) : M unit :=
  let decode_and_open (bytes : string) : M unit :=
    emit (DecodeRawPSBT_call bytes);;
    match DecodeRawPSBT bytes with
    | inr error =>
        emit (message (tr "Error")
                ((tr "Unable to decode PSBT" +:+ newline) +:+ error) MSG_ERROR)
    | inl psbtx =>
        v ← get_view;
        emit (PSBTOperationsDialog_new (walletModel v) (clientModel v));;
        emit (PSBTOperationsDialog_openWithPSBT psbtx);;
        emit PSBTOperationsDialog_setAttribute_WA_DeleteOnClose;;
        emit PSBTOperationsDialog_exec
    end in
  if from_clipboard then
    emit QClipboard_text;;
    let raw := clipboard_text E in
    emit (DecodeBase64_call raw);;
    let '(bytes, invalid) := DecodeBase64 raw in
    if invalid then
      emit (message (tr "Error")
              (tr "Unable to decode PSBT from clipboard (invalid base64)") MSG_ERROR)
    else decode_and_open bytes
  else
    emit (GUIUtil_getOpenFileName (tr "Load Transaction Data") "" (tr filter_psbt));;
    let filename := getOpenFileName E in
    if bool_decide (filename = "") then mret tt
    else
      emit (GetFileSize_call filename MAX_FILE_SIZE_PSBT);;
      if bool_decide (GetFileSize (files E) filename MAX_FILE_SIZE_PSBT = MAX_FILE_SIZE_PSBT) then
        emit (message (tr "Error") (tr "PSBT file must be smaller than 100 MiB") MSG_ERROR)
      else
        emit (ifstream_read filename);;
        decode_and_open (read_ifstream (files E) filename).

(** Lines 354-357. *)
Definition updateEncryptionStatus : M unit := emit encryptionStatusChanged.

(** Lines 359-368. *)
Definition encryptWallet : M unit :=
  v ← get_view;
  match walletModel v with
  | None => mret tt
  | Some wm =>
      emit (AskPassphraseDialog_new Encrypt);;
      emit (AskPassphraseDialog_setModel (Some wm));;
      emit AskPassphraseDialog_exec;;
      updateEncryptionStatus
  end.

(** Lines 370-388. *)
Definition backupWallet (E : Env) : M unit :=
  emit (GUIUtil_getSaveFileName (tr "Backup Wallet") "" (tr "Wallet Data" +:+ filter_dat));;
  let filename := getSaveFileName E in
  if bool_decide (filename = "") then mret tt
  else
    v ← get_view;
    match walletModel v with
    | None => crash NullDereference
    | Some wm =>
        emit (Wallet_backupWallet filename);;
        if negb (backupWallet_result (wallet wm) filename) then
          emit (message (tr "Backup Failed")
                  (QString_arg (tr "There was an error trying to save the wallet data to %1.")
                     filename) MSG_ERROR)
        else
          emit (message (tr "Backup Successful")
                  (QString_arg (tr "The wallet data was successfully saved to %1.")
                     filename) MSG_INFORMATION)
    end.

(** Lines 390-395. *)
Definition changePassphrase : M unit :=
  v ← get_view;
  emit (AskPassphraseDialog_new ChangePass);;
  emit (AskPassphraseDialog_setModel (walletModel v));;
  emit AskPassphraseDialog_exec.

(** Lines 397-408. *)
Definition unlockWallet : M unit :=
  v ← get_view;
  match walletModel v with
  | None => mret tt
  | Some wm =>
      match getEncryptionStatus wm with
      | Locked =>
          emit (AskPassphraseDialog_new Unlock);;
          emit (AskPassphraseDialog_setModel (Some wm));;
          emit AskPassphraseDialog_exec
      | _ => mret tt
      end
  end.

(** Lines 410-416. *)
Definition lockWallet : M unit :=
  v ← get_view;
  match walletModel v with
  | None => mret tt
  | Some _ => emit (WalletModel_setWalletLocked true)
  end.

(** Lines 419-425. *)
Definition usedSendingAddresses : M unit :=
  v ← get_view;
  match walletModel v with
  | None => mret tt
  | Some _ => emit (GUIUtil_bringToFront usedSendingAddressesPage)
  end.

(** Lines 427-433. *)
Definition usedReceivingAddresses : M unit :=
  v ← get_view;
  match walletModel v with
  | None => mret tt
  | Some _ => emit (GUIUtil_bringToFront usedReceivingAddressesPage)
  end.

(** Lines 435-456.  [getWalletModel()] returns the member [walletModel]. *)
Definition showProgress (title : string) (nProgress : Z) : M unit :=
  if bool_decide (nProgress = 0) then
    p ← new_dialog (QProgressDialog_new title (tr "Cancel") 0 100);
    v ← get_view;
    put_view (set_progressDialog (Some p) v);;
    call_dialog p PolishProgressDialog;;
    call_dialog p (setWindowModality ApplicationModal);;
    call_dialog p (setAutoClose false);;
    call_dialog p (setValue 0)
  else if bool_decide (nProgress = 100) then
    v ← get_view;
    match progressDialog v with
    | Some p =>
        call_dialog p close;;
        call_dialog p set_deleteLater;;
        put_view (set_progressDialog None v)
    | None => mret tt
    end
  else
    v ← get_view;
    match progressDialog v with
    | Some p =>
        canceled ← ask_dialog p wasCanceled;
        if canceled : bool then
          match walletModel v with
          | None => crash NullDereference
          | Some _ => emit Wallet_abortRescan
          end
        else call_dialog p (setValue nProgress)
    | None => mret tt
    end.

End WalletViewModel.


Arguments Ok {X A} a s evs.
Arguments Crash {X A} f.

(** ** Reading a trace *)

Section Traces.
Context `{X : Collaborators}.

Definition is_message (e : Event) : bool :=
  match e with message _ _ _ => true | _ => false end.

Definition is_DecodeRawPSBT (e : Event) : bool :=
  match e with DecodeRawPSBT_call _ => true | _ => false end.

Definition is_ifstream_read (e : Event) : bool :=
  match e with ifstream_read _ => true | _ => false end.

Definition is_PSBTOperationsDialog (e : Event) : bool :=
  match e with
  | PSBTOperationsDialog_new _ _ | PSBTOperationsDialog_openWithPSBT _
  | PSBTOperationsDialog_setAttribute_WA_DeleteOnClose
  | PSBTOperationsDialog_exec => true
  | _ => false
  end.

Definition is_AskPassphraseDialog (e : Event) : bool :=
  match e with
  | AskPassphraseDialog_new _ | AskPassphraseDialog_setModel _
  | AskPassphraseDialog_exec => true
  | _ => false
  end.

Definition is_backupWallet (e : Event) : bool :=
  match e with Wallet_backupWallet _ => true | _ => false end.

Definition is_abortRescan (e : Event) : bool :=
  match e with Wallet_abortRescan => true | _ => false end.

Definition is_SendCoinsDialog_setAddress (e : Event) : bool :=
  match e with SendCoinsDialog_setAddress _ => true | _ => false end.

(** How many events of a kind a call produced. *)
Definition count (p : Event → bool) (evs : list Event) : nat :=
  length (List.filter p evs).

(** [sub] occurs in [s]. *)
Definition contains (sub s : string) : Prop :=
  ∃ before after, s = (before +:+ sub) +:+ after.

(** The state after [setCurrentWidget w] and nothing else. *)
Definition shows (w : Page) (s : State) : State :=
  {| view := set_currentWidget w (view s); dialogs := dialogs s |}.

(** [s'] is [s] except, possibly, for the current widget. *)
Definition same_but_current_widget (s s' : State) : Prop :=
  this (view s') = this (view s) ∧
  clientModel (view s') = clientModel (view s) ∧
  walletModel (view s') = walletModel (view s) ∧
  walletFrame (view s') = walletFrame (view s) ∧
  progressDialog (view s') = progressDialog (view s) ∧
  dialogs s' = dialogs s.

(** A slot that makes [w] current, touches nothing else of the state and
    issues exactly the calls [evs]. *)
Definition switches_to (m : M unit) (w : Page) (evs : list Event) : Prop :=
  ∀ s, ∃ s', m s = Ok tt s' evs ∧
             currentWidget (view s') = w ∧ same_but_current_widget s s'.

End Traces.

(** ** A concrete desktop on which the slots can be run *)

(** Stand-in for [QString::arg]: the first [%1] is replaced. *)
Fixpoint demo_arg (fmt a : string) : string :=
  match fmt with
  | String "%" (String "1" rest) => a +:+ rest
  | String c rest => String c (demo_arg rest a)
  | EmptyString => EmptyString
  end.

(** Stand-in for [GUIUtil::HtmlEscape]: the four characters that
    [QString::toHtmlEscaped] replaces (the last is the double quote). *)
Definition demo_escape_char (c : ascii) : string :=
  if Ascii.eqb c "<" then "&lt;"
  else if Ascii.eqb c ">" then "&gt;"
  else if Ascii.eqb c "&" then "&amp;"
  else if Ascii.eqb c (ascii_of_nat 34) then "&quot;"
  else String c EmptyString.

Fixpoint demo_HtmlEscape (s : string) : string :=
  match s with
  | String c rest => demo_escape_char c +:+ demo_HtmlEscape rest
  | EmptyString => EmptyString
  end.

Fixpoint has_blank (s : string) : bool :=
  match s with
  | String " " _ => true
  | String _ rest => has_blank rest
  | EmptyString => false
  end.

(** Stand-in codecs: a text with a blank is not base64 and decodes to
    nothing; the decoded bytes are the text itself.  A transaction is
    accepted when it starts with the magic bytes. *)
Definition demo_DecodeBase64 (raw : string) : string * bool :=
  if has_blank raw then ("", true) else (raw, false).

Definition demo_DecodeRawPSBT (bytes : string) : string + string :=
  if String.prefix "psbt" bytes then inl bytes else inr "Invalid PSBT magic bytes".

(** Modelled from the spec: psbt.h is not part of the excerpt; the limit
    is the 100 MiB of the specification and of the error message. *)
Definition demo_MAX_FILE_SIZE_PSBT : Z := 100 * 1024 * 1024.

Definition demo : Collaborators := {|
  PartiallySignedTransaction := string;
  QModelIndex := Z * Z;
  tr := λ s, s;
  QString_arg := demo_arg;
  HtmlEscape := demo_HtmlEscape;
  DecodeBase64 := demo_DecodeBase64;
  DecodeRawPSBT := demo_DecodeRawPSBT;
  MAX_FILE_SIZE_PSBT := demo_MAX_FILE_SIZE_PSBT;
  TransactionTableModel_Date := 2;
  TransactionTableModel_Type := 3;
  TransactionTableModel_Amount := 5;
  TransactionTableModel_AddressRole := 261;
  TransactionTableModel_LabelRole := 262
|}.

Section DemoObjects.
#[local] Existing Instance demo.

(** A table with one transaction in row 0: a receipt of 2.5 coins. *)
Definition demo_cell (i : Z * Z) (role : Z) : QVariant :=
  match i with
  | (0, 2) => {| toString := "11/2/26 16:51"; toULongLong := 0 |}
  | (0, 3) => {| toString := "Received with"; toULongLong := 0 |}
  | (0, 5) => if bool_decide (role = 2)
              then {| toString := "250000000"; toULongLong := 250000000 |}
              else {| toString := "2.50000000"; toULongLong := 2 |}
  | (0, 0) => if bool_decide (role = 261)
              then {| toString := "SNodeAddr1"; toULongLong := 0 |}
              else if bool_decide (role = 262)
              then {| toString := "rent <May>"; toULongLong := 0 |}
              else {| toString := ""; toULongLong := 0 |}
  | _ => {| toString := ""; toULongLong := 0 |}
  end.

Definition demo_ttm (queued : bool) : TransactionTableModel :=
  {| processingQueuedTransactions := queued;
     index := λ row column _, (row, column);
     data := demo_cell |}.

Definition demo_walletModel (status : EncryptionStatus) (backup_ok : bool)
    (ttm : option (TransactionTableModel)) : WalletModel :=
  {| getEncryptionStatus := status;
     getTransactionTableModel := ttm;
     getOptionsModel := {| getDisplayUnit := 0 |};
     getWalletName := "main & spare";
     wallet := {| backupWallet_result := λ _, backup_ok |} |}.

Definition demo_clientModel (ibd : bool) : ClientModel :=
  {| node := {| isInitialBlockDownload := ibd |} |}.

(** The view at address 1 of a frame whose current view is [current]. *)
Definition demo_view (wm : option (WalletModel)) (cm : option ClientModel)
    (current : option loc) (pd : option loc) : WalletView :=
  {| this := 1%positive; clientModel := cm; walletModel := wm;
     walletFrame := Some {| currentWalletView := current |};
     progressDialog := pd; currentWidget := transactionsPage |}.

Definition demo_state (wm : option (WalletModel)) (cm : option ClientModel)
    (current : option loc) : State :=
  {| view := demo_view wm cm current None; dialogs := ∅ |}.

(** A state whose progress dialog, at address 7, was or was not cancelled. *)
Definition demo_dialog (canceled : bool) : QProgressDialog :=
  {| labelText := "Rescanning..."; cancelButtonText := "Cancel";
     minimum := 0; maximum := 100; polished := true;
     windowModality := ApplicationModal; autoClose := false; value := 10;
     wasCanceled := canceled; closed := false; deleteLater := false |}.

Definition demo_rescan (wm : option (WalletModel)) (canceled : bool) : State :=
  {| view := demo_view wm None None (Some 7%positive);
     dialogs := {[ 7%positive := demo_dialog canceled ]} |}.

Definition demo_env (clip open save : string) (fs : gmap string File) : Env :=
  {| clipboard_text := clip; getOpenFileName := open;
     getSaveFileName := save; files := fs |}.

(** The user presses Cancel on the dialog at [p]. *)
Definition user_cancels (p : loc) (s : State) : State :=
  {| view := view s;
     dialogs := alter (λ d,
       {| labelText := labelText d; cancelButtonText := cancelButtonText d;
          minimum := minimum d; maximum := maximum d;
          polished := polished d; windowModality := windowModality d;
          autoClose := autoClose d; value := value d;
          wasCanceled := true; closed := closed d;
          deleteLater := deleteLater d |}) p (dialogs s) |}.

(** The state a slot leaves behind, when it returns. *)
Definition state_after {A} (r : Result A) (otherwise : State) : State :=
  match r with Ok _ s _ => s | Crash _ => otherwise end.

Definition events_of {A} (r : Result A) : option (list Event) :=
  match r with Ok _ _ evs => Some evs | Crash _ => None end.

(** No model is set yet. *)
Definition idle : State := demo_state None None None.

(** Both models are set, the node is in sync and this view is the one
    shown by its frame. *)
Definition wallet_ready (status : EncryptionStatus) (backup_ok : bool) : State :=
  demo_state (Some (demo_walletModel status backup_ok (Some (demo_ttm false))))
             (Some (demo_clientModel false)) (Some 1%positive).

(** A file of exactly 100 MiB. *)
Definition big_file : File :=
  {| file_size := 100 * 1024 * 1024; file_data := "psbt" |}.

End DemoObjects.

(** ** What the specification says, as propositions *)

Section Statements.
Context `{X : Collaborators}.

(** "walletFrame is non-null and walletFrame->currentWalletView() equals
    this view". *)
Definition shown_in_frame (v : WalletView) : Prop :=
  ∃ wf, walletFrame v = Some wf ∧ currentWalletView wf = Some (this v).

(** "walletModel is non-null and walletModel->getEncryptionStatus() equals
    WalletModel::Locked". *)
Definition locked_wallet (v : WalletView) : Prop :=
  ∃ wm, walletModel v = Some wm ∧ getEncryptionStatus wm = Locked.

(** The conditions under which [processNewTransaction] stays silent. *)
Definition suppressed (v : WalletView) : Prop :=
  walletModel v = None ∨
  clientModel v = None ∨
  (∃ cm, clientModel v = Some cm ∧ isInitialBlockDownload (node cm) = true) ∨
  (∃ wm, walletModel v = Some wm ∧
     (getTransactionTableModel wm = None ∨
      ∃ ttm, getTransactionTableModel wm = Some ttm ∧
             processingQueuedTransactions ttm = true)).

(** The two messages of [backupWallet]. *)
Definition backup_failed (filename : string) : Event :=
  message (tr "Backup Failed")
    (QString_arg (tr "There was an error trying to save the wallet data to %1.") filename)
    MSG_ERROR.

Definition backup_successful (filename : string) : Event :=
  message (tr "Backup Successful")
    (QString_arg (tr "The wallet data was successfully saved to %1.") filename)
    MSG_INFORMATION.

(** [backupWallet] as it is specified for every call: nothing happens for
    an empty file name; otherwise the wallet is asked once and the one
    message that follows tells how it answered. *)
Definition backupWallet_spec (E : Env) (s : State) : Prop :=
  let filename := getSaveFileName E in
  (filename = "" →
     ∃ evs, backupWallet E s = Ok tt s evs ∧
            count is_backupWallet evs = 0%nat ∧ count is_message evs = 0%nat) ∧
  (filename ≠ "" →
     ∃ evs, backupWallet E s = Ok tt s evs ∧
            List.filter is_backupWallet evs = [Wallet_backupWallet filename] ∧
            count is_message evs = 1%nat ∧
            ∀ wm, walletModel (view s) = Some wm →
              (In (backup_failed filename) evs ↔
                 backupWallet_result (wallet wm) filename = false) ∧
              (In (backup_successful filename) evs ↔
                 backupWallet_result (wallet wm) filename = true)).

(** The state after [showProgress] replaced or cleared the pointer and
    rewrote the heap. *)
Definition with_dialog (p : option loc) (h : gmap loc QProgressDialog)
    (s : State) : State :=
  {| view := set_progressDialog p (view s); dialogs := h |}.

(** The rescan-progress protocol of [showProgress], as specified. *)
Definition showProgress_spec (title : string) (nProgress : Z) (s : State) : Prop :=
  (nProgress = 0 →
     ∃ p d, dialogs s !! p = None ∧
            showProgress title nProgress s
              = Ok tt (with_dialog (Some p) (<[p := d]> (dialogs s)) s) [] ∧
            labelText d = title ∧
            windowModality d = ApplicationModal ∧ value d = 0 ∧
            wasCanceled d = false ∧ closed d = false) ∧
  (nProgress = 100 →
     (progressDialog (view s) = None → showProgress title nProgress s = Ok tt s []) ∧
     (∀ p d, progressDialog (view s) = Some p → dialogs s !! p = Some d →
        showProgress title nProgress s
          = Ok tt (with_dialog None (<[p := set_deleteLater (close d)]> (dialogs s)) s) [])) ∧
  (nProgress ≠ 0 → nProgress ≠ 100 →
     (progressDialog (view s) = None → showProgress title nProgress s = Ok tt s []) ∧
     (∀ p d, progressDialog (view s) = Some p → dialogs s !! p = Some d →
        ∃ s' evs, showProgress title nProgress s = Ok tt s' evs ∧
          (count is_abortRescan evs = 1%nat ↔ wasCanceled d = true) ∧
          (wasCanceled d = true → s' = s ∧ evs = [Wallet_abortRescan]) ∧
          (wasCanceled d = false →
             evs = [] ∧
             s' = {| view := view s;
                     dialogs := <[p := setValue nProgress d]> (dialogs s) |}))) ∧
  (nProgress = 0 ∨ nProgress = 100 ∨ progressDialog (view s) = None →
     ∀ s' evs, showProgress title nProgress s = Ok tt s' evs →
               count is_abortRescan evs = 0%nat).

(** The one input on which [showProgress] reaches the wallet. *)
Definition reaches_wallet (nProgress : Z) (s : State) : Prop :=
  nProgress ≠ 0 ∧ nProgress ≠ 100 ∧
  ∃ p d, progressDialog (view s) = Some p ∧ dialogs s !! p = Some d ∧
         wasCanceled d = true.

(** The member [progressDialog] is null or points to a live dialog. *)
Definition progressDialog_live (s : State) : Prop :=
  ∀ p, progressDialog (view s) = Some p → is_Some (dialogs s !! p).

(** The tail of [gotoLoadPSBT] from line 331 on, once [bytes] is assembled. *)
Definition decoded_events (s : State) (bytes : string) : list Event :=
  DecodeRawPSBT_call bytes ::
  match DecodeRawPSBT bytes with
  | inr error =>
      [message (tr "Error") ((tr "Unable to decode PSBT" +:+ newline) +:+ error) MSG_ERROR]
  | inl psbtx =>
      [PSBTOperationsDialog_new (walletModel (view s)) (clientModel (view s));
       PSBTOperationsDialog_openWithPSBT psbtx;
       PSBTOperationsDialog_setAttribute_WA_DeleteOnClose;
       PSBTOperationsDialog_exec]
  end.

Definition chooser_event : Event :=
  GUIUtil_getOpenFileName (tr "Load Transaction Data") "" (tr filter_psbt).

(** What the specification of the decoder asks of a trace that called
    [DecodeRawPSBT] on [bytes]. *)
Definition decode_outcome (s : State) (bytes : string) (evs : list Event) : Prop :=
  match DecodeRawPSBT bytes with
  | inr error =>
      (∃ text, List.filter is_message evs = [message (tr "Error") text MSG_ERROR] ∧
               contains error text) ∧
      count is_PSBTOperationsDialog evs = 0%nat
  | inl psbtx =>
      List.filter is_PSBTOperationsDialog evs
        = [PSBTOperationsDialog_new (walletModel (view s)) (clientModel (view s));
           PSBTOperationsDialog_openWithPSBT psbtx;
           PSBTOperationsDialog_setAttribute_WA_DeleteOnClose;
           PSBTOperationsDialog_exec] ∧
      count is_message evs = 0%nat
  end.

End Statements.

(** ** The rest of the class: model setters, message dialogs, sequences *)

Section Wiring.
Context `{X : Collaborators}.

(** [_walletModel->getAddressTableModel()]: the table is known by the
    wallet model it belongs to. *)
Inductive AddressTableModel := addressTableModel_of (wm : WalletModel).

(** The connections made by [setWalletModel] (lines 165-180), by signal. *)
Inductive Connection :=
| WalletModel_message (wm : WalletModel)
| WalletModel_encryptionStatusChanged (wm : WalletModel)
| TransactionTableModel_rowsInserted (ttm : option TransactionTableModel)
| WalletModel_requireUnlock (wm : WalletModel)
| WalletModel_showProgress (wm : WalletModel).

(** The calls and signals of the functions below; the slots above keep
    their [Event]s. *)
Inductive Wiring :=
| slot_event (e : Event)
| hdEnabledStatusChanged
| connect (c : Connection)
(* setClientModel *)
| OverviewPage_setClientModel (cm : option ClientModel)
| SendCoinsDialog_setClientModel (cm : option ClientModel)
| WalletModel_setClientModel (wm : WalletModel) (cm : option ClientModel)
| InfinitynodeList_setClientModel (cm : option ClientModel)
| StatsPage_setClientModel (cm : option ClientModel)
| StakePage_setClientModel (cm : option ClientModel)
(* setWalletModel *)
| TransactionView_setModel (wm : option WalletModel)
| OverviewPage_setWalletModel (wm : option WalletModel)
| InfinitynodeList_setWalletModel (wm : option WalletModel)
| ReceiveRequestDialog_setModel (wm : option WalletModel)
| SendCoinsDialog_setModel (wm : option WalletModel)
| StakePage_setWalletModel (wm : option WalletModel)
| AddressBookPage_setModel (w : AddressBook) (atm : option AddressTableModel)
(* SignVerifyMessageDialog *)
| SignVerifyMessageDialog_new
| SignVerifyMessageDialog_setAttribute_WA_DeleteOnClose
| SignVerifyMessageDialog_setModel (wm : option WalletModel)
| SignVerifyMessageDialog_showTab_SM (fShow : bool)
| SignVerifyMessageDialog_setAddress_SM (addr : string)
| SignVerifyMessageDialog_showTab_VM (fShow : bool)
| SignVerifyMessageDialog_setAddress_VM (addr : string)
(* other forwards *)
| InfinitynodeList_showTab_setUP (fShow : bool)
| OverviewPage_showOutOfSyncWarning (fShow : bool).

Inductive ResultW (A : Type) :=
| OkW (a : A) (s : State) (evs : list Wiring)
| CrashW (f : Fault).
Arguments OkW {A} a s evs.
Arguments CrashW {A} f.

Definition MW (A : Type) : Type := State → ResultW A.

Definition retW {A} (a : A) : MW A := λ s, OkW a s [].

Definition bindW {A B} (m : MW A) (k : A → MW B) : MW B :=
  λ s, match m s with
       | OkW a s1 e1 =>
           match k a s1 with
           | OkW b s2 e2 => OkW b s2 (e1 ++ e2)
           | CrashW f => CrashW f
           end
       | CrashW f => CrashW f
       end.

#[global] Instance MW_ret : MRet MW := @retW.
#[global] Instance MW_bind : MBind MW := λ A B k m, bindW m k.

(** A slot of the first part, called from here. *)
Definition lift {A} (m : M A) : MW A :=
  λ s, match m s with
       | Ok a s' evs => OkW a s' (slot_event <$> evs)
       | Crash f => CrashW f
       end.

Definition emitW (e : Wiring) : MW unit := λ s, OkW tt s [e].

Definition set_clientModel (cm : option ClientModel) (v : WalletView) : WalletView :=
  {| this := this v; clientModel := cm; walletModel := walletModel v;
     walletFrame := walletFrame v; progressDialog := progressDialog v;
     currentWidget := currentWidget v |}.

Definition set_walletModel (wm : option WalletModel) (v : WalletView) : WalletView :=
  {| this := this v; clientModel := clientModel v; walletModel := wm;
     walletFrame := walletFrame v; progressDialog := progressDialog v;
     currentWidget := currentWidget v |}.

(** Lines 129-142. *)
Definition setClientModel (_clientModel : option ClientModel) : MW unit :=
  v ← lift get_view;
  lift (put_view (set_clientModel _clientModel v));;
  emitW (OverviewPage_setClientModel _clientModel);;
  emitW (SendCoinsDialog_setClientModel _clientModel);;
  v ← lift get_view;
  match walletModel v with
  | Some wm => emitW (WalletModel_setClientModel wm _clientModel)
  | None => mret tt
  end;;
  emitW (InfinitynodeList_setClientModel (clientModel v));;
  emitW (StatsPage_setClientModel (clientModel v));;
  emitW (StakePage_setClientModel _clientModel).

(** Lines 144-182. *)
Definition setWalletModel (_walletModel : option WalletModel) : MW unit :=
  v ← lift get_view;
  lift (put_view (set_walletModel _walletModel v));;
  emitW (TransactionView_setModel _walletModel);;
  emitW (OverviewPage_setWalletModel _walletModel);;
  emitW (InfinitynodeList_setWalletModel _walletModel);;
  emitW (ReceiveRequestDialog_setModel _walletModel);;
  emitW (SendCoinsDialog_setModel _walletModel);;
  emitW (StakePage_setWalletModel _walletModel);;
  emitW (AddressBookPage_setModel usedReceivingAddressesPage
           (match _walletModel with
            | Some wm => Some (addressTableModel_of wm)
            | None => None
            end));;
  emitW (AddressBookPage_setModel usedSendingAddressesPage
           (match _walletModel with
            | Some wm => Some (addressTableModel_of wm)
            | None => None
            end));;
  match _walletModel with
  | Some wm =>
      emitW (connect (WalletModel_message wm));;
      emitW (connect (WalletModel_encryptionStatusChanged wm));;
      lift updateEncryptionStatus;;
      emitW hdEnabledStatusChanged;;
      emitW (connect (TransactionTableModel_rowsInserted (getTransactionTableModel wm)));;
      emitW (connect (WalletModel_requireUnlock wm));;
      emitW (connect (WalletModel_showProgress wm))
  | None => mret tt
  end.

(** Lines 274-284. *)
Definition gotoSignMessageTab (addr : string) : MW unit :=
  v ← lift get_view;
  emitW SignVerifyMessageDialog_new;;
  emitW SignVerifyMessageDialog_setAttribute_WA_DeleteOnClose;;
  emitW (SignVerifyMessageDialog_setModel (walletModel v));;
  emitW (SignVerifyMessageDialog_showTab_SM true);;
  if bool_decide (addr = "") then mret tt
  else emitW (SignVerifyMessageDialog_setAddress_SM addr).

(** Lines 286-292. *)
Definition gotoSetupTab : MW unit :=
  lift (setCurrentWidget infinitynodeListPage);;
  emitW (InfinitynodeList_showTab_setUP true).

(** Lines 294-304. *)
Definition gotoVerifyMessageTab (addr : string) : MW unit :=
  v ← lift get_view;
  emitW SignVerifyMessageDialog_new;;
  emitW SignVerifyMessageDialog_setAttribute_WA_DeleteOnClose;;
  emitW (SignVerifyMessageDialog_setModel (walletModel v));;
  emitW (SignVerifyMessageDialog_showTab_VM true);;
  if bool_decide (addr = "") then mret tt
  else emitW (SignVerifyMessageDialog_setAddress_VM addr).

(** Lines 349-352. *)
Definition showOutOfSyncWarning (fShow : bool) : MW unit :=
  emitW (OverviewPage_showOutOfSyncWarning fShow).

(** [QProgressDialog::cancel], the slot behind the Cancel button. *)
Definition cancel (d : QProgressDialog) : QProgressDialog :=
  {| labelText := labelText d; cancelButtonText := cancelButtonText d;
     minimum := minimum d; maximum := maximum d;
     polished := polished d; windowModality := windowModality d;
     autoClose := autoClose d; value := value d;
     wasCanceled := true; closed := closed d;
     deleteLater := deleteLater d |}.

(** What can happen to a view: a call of one of its functions, or the
    user pressing Cancel on a progress dialog between two calls. *)
Inductive Action :=
| do_setClientModel (cm : option ClientModel)
| do_setWalletModel (wm : option WalletModel)
| do_processNewTransaction (parent : QModelIndex) (start end_ : Z)
| do_gotoOverviewPage
| do_gotoHomePage
| do_hideTransactionWidget
| do_gotoHistoryPage
| do_gotoInfinitynodePage
| do_gotoStatsPage
| do_gotoFaqPage
| do_gotoStakePage
| do_gotoReceiveCoinsPage
| do_gotoSendCoinsPage (addr : string)
| do_gotoSignMessageTab (addr : string)
| do_gotoSetupTab
| do_gotoVerifyMessageTab (addr : string)
| do_gotoLoadPSBT (E : Env) (from_clipboard : bool)
| do_showOutOfSyncWarning (fShow : bool)
| do_updateEncryptionStatus
| do_encryptWallet
| do_backupWallet (E : Env)
| do_changePassphrase
| do_unlockWallet
| do_lockWallet
| do_usedSendingAddresses
| do_usedReceivingAddresses
| do_showProgress (title : string) (nProgress : Z)
| user_presses_cancel (p : loc).

Definition perform (a : Action) : MW unit :=
  match a with
  | do_setClientModel cm => setClientModel cm
  | do_setWalletModel wm => setWalletModel wm
  | do_processNewTransaction parent start end_ =>
      lift (processNewTransaction parent start end_)
  | do_gotoOverviewPage => lift gotoOverviewPage
  | do_gotoHomePage => lift gotoHomePage
  | do_hideTransactionWidget => lift hideTransactionWidget
  | do_gotoHistoryPage => lift gotoHistoryPage
  | do_gotoInfinitynodePage => lift gotoInfinitynodePage
  | do_gotoStatsPage => lift gotoStatsPage
  | do_gotoFaqPage => lift gotoFaqPage
  | do_gotoStakePage => lift gotoStakePage
  | do_gotoReceiveCoinsPage => lift gotoReceiveCoinsPage
  | do_gotoSendCoinsPage addr => lift (gotoSendCoinsPage addr)
  | do_gotoSignMessageTab addr => gotoSignMessageTab addr
  | do_gotoSetupTab => gotoSetupTab
  | do_gotoVerifyMessageTab addr => gotoVerifyMessageTab addr
  | do_gotoLoadPSBT E from_clipboard => lift (gotoLoadPSBT E from_clipboard)
  | do_showOutOfSyncWarning fShow => showOutOfSyncWarning fShow
  | do_updateEncryptionStatus => lift updateEncryptionStatus
  | do_encryptWallet => lift encryptWallet
  | do_backupWallet E => lift (backupWallet E)
  | do_changePassphrase => lift changePassphrase
  | do_unlockWallet => lift unlockWallet
  | do_lockWallet => lift lockWallet
  | do_usedSendingAddresses => lift usedSendingAddresses
  | do_usedReceivingAddresses => lift usedReceivingAddresses
  | do_showProgress title nProgress => lift (showProgress title nProgress)
  | user_presses_cancel p =>
      λ s, OkW tt {| view := view s; dialogs := alter cancel p (dialogs s) |} []
  end.

Fixpoint perform_all (acts : list Action) : MW unit :=
  match acts with
  | [] => mret tt
  | a :: rest => perform a;; perform_all rest
  end.

(** The page an action makes current, if it is a navigation. *)
Definition nav_target (a : Action) : option Page :=
  match a with
  | do_gotoOverviewPage | do_gotoHomePage
  | do_gotoReceiveCoinsPage | do_gotoSendCoinsPage _ => Some overviewPage
  | do_gotoHistoryPage => Some transactionsPage
  | do_gotoInfinitynodePage | do_gotoSetupTab => Some infinitynodeListPage
  | do_gotoStatsPage => Some statsWindow
  | do_gotoFaqPage => Some faqWindow
  | do_gotoStakePage => Some stakePage
  | _ => None
  end.

(** The members a sequence of actions leaves behind, read off the
    sequence alone. *)
Definition page_after (acts : list Action) (w : Page) : Page :=
  fold_left (λ w a, default w (nav_target a)) acts w.

Definition walletModel_after (acts : list Action) (wm : option WalletModel)
    : option WalletModel :=
  fold_left (λ wm a, match a with do_setWalletModel wm' => wm' | _ => wm end) acts wm.

Definition clientModel_after (acts : list Action) (cm : option ClientModel)
    : option ClientModel :=
  fold_left (λ cm a, match a with do_setClientModel cm' => cm' | _ => cm end) acts cm.

(** The state in which no slot can dereference a null or dangling pointer. *)
Definition ready (s : State) : Prop :=
  is_Some (walletModel (view s)) ∧ progressDialog_live s.

(** An action that keeps the wallet model set. *)
Definition keeps_model (a : Action) : Prop := a ≠ do_setWalletModel None.

Definition count_wiring (p : Wiring → bool) (evs : list Wiring) : nat :=
  length (List.filter p evs).

Definition is_connect (e : Wiring) : bool :=
  match e with connect _ => true | _ => false end.

Definition is_signal (e : Wiring) : bool :=
  match e with
  | hdEnabledStatusChanged | slot_event encryptionStatusChanged => true
  | _ => false
  end.

Definition is_WalletModel_setClientModel (e : Wiring) : bool :=
  match e with WalletModel_setClientModel _ _ => true | _ => false end.

Definition is_PSBTOperationsDialog_exec (e : Event) : bool :=
  match e with PSBTOperationsDialog_exec => true | _ => false end.

Definition is_clipboard (e : Event) : bool :=
  match e with QClipboard_text | DecodeBase64_call _ => true | _ => false end.

Definition is_file_system (e : Event) : bool :=
  match e with
  | GUIUtil_getOpenFileName _ _ _ | GetFileSize_call _ _ | ifstream_read _ => true
  | _ => false
  end.

Definition amount_of (e : Event) : option Z :=
  match e with
  | incomingTransaction _ _ amount _ _ _ _ => Some amount
  | _ => None
  end.

(** The five ways in which [showProgress] returns. *)
Inductive showProgress_returns (title : string) (nProgress : Z) (s : State)
    : State → list Event → Prop :=
| returns_started :
    nProgress = 0 →
    showProgress_returns title nProgress s
      (with_dialog (Some (fresh (dom (dialogs s))))
         (<[fresh (dom (dialogs s)) :=
              setValue 0 (setAutoClose false (setWindowModality ApplicationModal
                (PolishProgressDialog (QProgressDialog_new title (tr "Cancel") 0 100))))]>
            (dialogs s)) s) []
| returns_idle :
    nProgress ≠ 0 → progressDialog (view s) = None →
    showProgress_returns title nProgress s s []
| returns_finished p d :
    nProgress = 100 →
    progressDialog (view s) = Some p → dialogs s !! p = Some d →
    showProgress_returns title nProgress s
      (with_dialog None (<[p := set_deleteLater (close d)]> (dialogs s)) s) []
| returns_aborted p d :
    nProgress ≠ 0 → nProgress ≠ 100 →
    progressDialog (view s) = Some p → dialogs s !! p = Some d →
    wasCanceled d = true → is_Some (walletModel (view s)) →
    showProgress_returns title nProgress s s [Wallet_abortRescan]
| returns_updated p d :
    nProgress ≠ 0 → nProgress ≠ 100 →
    progressDialog (view s) = Some p → dialogs s !! p = Some d →
    wasCanceled d = false →
    showProgress_returns title nProgress s
      {| view := view s; dialogs := <[p := setValue nProgress d]> (dialogs s) |} [].

(** The members as one tuple, and what one action does to it. *)
Definition members_step (a : Action) (v v' : WalletView) : Prop :=
  this v' = this v ∧ walletFrame v' = walletFrame v ∧
  walletModel v' = match a with do_setWalletModel wm => wm | _ => walletModel v end ∧
  clientModel v' = match a with do_setClientModel cm => cm | _ => clientModel v end ∧
  currentWidget v' = default (currentWidget v) (nav_target a).

(** The states in which an action dereferences a null or dangling
    pointer, and which one. *)
Definition goes_wrong (a : Action) (s : State) (f : Fault) : Prop :=
  match a with
  | do_backupWallet E =>
      getSaveFileName E ≠ "" ∧ walletModel (view s) = None ∧ f = NullDereference
  | do_showProgress _ nProgress =>
      nProgress ≠ 0 ∧
      ∃ p, progressDialog (view s) = Some p ∧
           ((dialogs s !! p = None ∧ f = DanglingPointer) ∨
            (nProgress ≠ 100 ∧
             ∃ d, dialogs s !! p = Some d ∧ wasCanceled d = true ∧
                  walletModel (view s) = None ∧ f = NullDereference))
  | _ => False
  end.

End Wiring.

Arguments OkW {X A} a s evs.
Arguments CrashW {X A} f.

Section DemoWiring.
#[local] Existing Instance demo.

(** A table whose row 0 is a payment of 1.5 coins: the Amount cell holds
    the signed value -150000000, which toULongLong reports modulo 2^64. *)
Definition demo_debit_ttm : TransactionTableModel :=
  {| processingQueuedTransactions := false;
     index := λ row column _, (row, column);
     data := λ i role,
       match i with
       | (0, 5) => {| toString := "-1.50000000";
                      toULongLong := 2 ^ 64 - 150000000 |}
       | _ => demo_cell i role
       end |}.

Definition demo_debit_state : State :=
  demo_state (Some (demo_walletModel Unlocked true (Some demo_debit_ttm)))
             (Some (demo_clientModel false)) None.

(** A session: the user navigates, a rescan starts, is cancelled and
    reported twice, the wallet is backed up and the rescan ends. *)
Definition demo_session : list Action :=
  [do_gotoHistoryPage;
   do_showProgress "Rescanning..." 0;
   user_presses_cancel 1%positive;
   do_showProgress "Rescanning..." 30;
   do_gotoSendCoinsPage "SNodeAddr1";
   do_showProgress "Rescanning..." 60;
   do_backupWallet (demo_env "" "" "w.dat" ∅);
   do_setClientModel None;
   do_showProgress "Rescanning..." 100;
   do_gotoSetupTab;
   do_lockWallet].

End DemoWiring.

(** ** Proofs *)

Section Claims.
Context `{X : Collaborators}.

(** Running a slot is unfolding the monad. *)
Ltac run :=
  cbv [mbind mret M_bind M_ret bind ret emit crash get_view put_view
       get_dialogs put_dialogs setCurrentWidget]; cbn [view dialogs app].

Lemma is_current_view_spec (v : WalletView) :
  is_current_view v = true ↔ shown_in_frame v.
Proof.
  unfold is_current_view, shown_in_frame.
  destruct (walletFrame v) as [wf|].
  - rewrite bool_decide_eq_true. split.
    + intros H. exists wf. auto.
    + intros (wf' & Hwf & H). congruence.
  - split; [discriminate | intros (wf & Hwf & _); discriminate].
Qed.

Lemma shows_frame (w : Page) (s : State) :
  currentWidget (view (shows w s)) = w ∧ same_but_current_widget s (shows w s).
Proof. unfold same_but_current_widget. cbn. tauto. Qed.

(** The conversion keeps the small values and wraps the large ones. *)
Lemma to_qint64_small (u : Z) : 0 ≤ u < 2 ^ 63 → to_qint64 u = u.
Proof.
  intros Hu. unfold to_qint64.
  rewrite Z.mod_small by lia. lia.
Qed.

Lemma to_qint64_wraps (u : Z) : 2 ^ 63 ≤ u < 2 ^ 64 → to_qint64 u = u - 2 ^ 64.
Proof.
  intros Hu. unfold to_qint64.
  replace (u + 2 ^ 63) with ((u - 2 ^ 63) + 1 * 2 ^ 64) by lia.
  rewrite Z.mod_add by lia. rewrite Z.mod_small by lia. lia.
Qed.

Lemma to_qint64_range (u : Z) : - 2 ^ 63 ≤ to_qint64 u < 2 ^ 63.
Proof.
  unfold to_qint64.
  pose proof (Z.mod_pos_bound (u + 2 ^ 63) (2 ^ 64) ltac:(lia)). lia.
Qed.

(** C7: each page-navigation slot only switches the visible widget:
    gotoHistoryPage, gotoInfinitynodePage, gotoStatsPage, gotoFaqPage and
    gotoStakePage make their own page current, issue no call and leave
    every other part of the state as it was; gotoOverviewPage and
    gotoHomePage both make overviewPage current, the first showing the
    transaction widget and hiding the toolbox widget, the second doing the
    opposite. *)
Theorem page_navigation_switches_only :
  switches_to gotoHistoryPage transactionsPage [] ∧
  switches_to gotoInfinitynodePage infinitynodeListPage [] ∧
  switches_to gotoStatsPage statsWindow [] ∧
  switches_to gotoFaqPage faqWindow [] ∧
  switches_to gotoStakePage stakePage [] ∧
  switches_to gotoOverviewPage overviewPage
    [OverviewPage_showTransactionWidget true; OverviewPage_showToolBoxWidget false] ∧
  switches_to gotoHomePage overviewPage
    [OverviewPage_showTransactionWidget false; OverviewPage_showToolBoxWidget true].
Proof.
  repeat split;
    intros s; eexists (shows _ s); (split; [reflexivity | apply shows_frame]).
Qed.

(** C9: unlockWallet opens an AskPassphraseDialog in Unlock mode if and
    only if walletModel is non-null and its encryption status is Locked;
    in every other case the call has no effect. *)
Theorem unlockWallet_iff_locked (s : State) :
  ∃ evs, unlockWallet s = Ok tt s evs ∧
    (In (AskPassphraseDialog_new Unlock) evs ↔ locked_wallet (view s)) ∧
    (In AskPassphraseDialog_exec evs ↔ locked_wallet (view s)) ∧
    (∀ wm, walletModel (view s) = Some wm → getEncryptionStatus wm = Locked →
       evs = [AskPassphraseDialog_new Unlock;
              AskPassphraseDialog_setModel (Some wm);
              AskPassphraseDialog_exec]) ∧
    (¬ locked_wallet (view s) → evs = []).
Proof.
  unfold unlockWallet, locked_wallet. run.
  destruct (walletModel (view s)) as [wm|] eqn:Hwm.
  - destruct (getEncryptionStatus wm) eqn:Hst; eexists; (split; [reflexivity|]);
      cbn; repeat split; try tauto; try congruence;
      try (intros (wm' & Heq & Hl); congruence);
      try (intros wm' Heq Hl; congruence);
      try (intros _; exists wm; auto);
      try (intros [H|[H|[H|[]]]]; discriminate);
      try (intros H; exfalso; apply H; exists wm; auto).
  - eexists; (split; [reflexivity|]); cbn; repeat split; try tauto;
      try discriminate; intros (wm' & Heq & _); discriminate.
Qed.

(** C10: gotoReceiveCoinsPage and gotoSendCoinsPage always make
    overviewPage current and write nothing else, but show their dialog
    only when walletFrame is non-null and its current wallet view is this
    view; gotoSendCoinsPage also calls setAddress(addr) on the send dialog
    if and only if addr is non-empty and that condition holds, before it
    shows the dialog.  No other call is made. *)
Theorem send_receive_shown_in_frame (addr : string) (s : State) :
  (∃ s' evs, gotoReceiveCoinsPage s = Ok tt s' evs ∧
     currentWidget (view s') = overviewPage ∧
     same_but_current_widget s s' ∧
     s' = shows overviewPage s ∧
     (In ReceiveRequestDialog_show evs ↔ shown_in_frame (view s)) ∧
     (shown_in_frame (view s) → evs = [ReceiveRequestDialog_show]) ∧
     (¬ shown_in_frame (view s) → evs = [])) ∧
  (∃ s' evs, gotoSendCoinsPage addr s = Ok tt s' evs ∧
     currentWidget (view s') = overviewPage ∧
     same_but_current_widget s s' ∧
     s' = shows overviewPage s ∧
     (In SendCoinsDialog_show evs ↔ shown_in_frame (view s)) ∧
     (In (SendCoinsDialog_setAddress addr) evs ↔
        addr ≠ "" ∧ shown_in_frame (view s)) ∧
     (count is_SendCoinsDialog_setAddress evs ≤ 1)%nat ∧
     (shown_in_frame (view s) → addr ≠ "" →
        evs = [SendCoinsDialog_setAddress addr; SendCoinsDialog_show]) ∧
     (shown_in_frame (view s) → addr = "" → evs = [SendCoinsDialog_show]) ∧
     (¬ shown_in_frame (view s) → evs = [])).
Proof.
  pose proof (is_current_view_spec (view s)) as Hcur.
  assert (Hsame : is_current_view (set_currentWidget overviewPage (view s))
                  = is_current_view (view s)) by reflexivity.
  assert (Hpage : currentWidget (view (shows overviewPage s)) = overviewPage)
    by reflexivity.
  assert (Hframe : same_but_current_widget s (shows overviewPage s))
    by (unfold same_but_current_widget; cbn; tauto).
  split.
  - unfold gotoReceiveCoinsPage. run. rewrite Hsame.
    destruct (is_current_view (view s)); eexists _, _; (split; [reflexivity|]);
      (split; [exact Hpage|]); (split; [exact Hframe|]);
      (split; [reflexivity|]); cbn.
    + assert (shown_in_frame (view s)) by (apply Hcur; reflexivity).
      repeat split; tauto.
    + assert (¬ shown_in_frame (view s)) by (rewrite <- Hcur; discriminate).
      repeat split; tauto.
  - unfold gotoSendCoinsPage. run. rewrite Hsame.
    destruct (is_current_view (view s)).
    + assert (Hin : shown_in_frame (view s)) by (apply Hcur; reflexivity).
      destruct (bool_decide (addr = "")) eqn:Ha;
        [apply bool_decide_eq_true in Ha | apply bool_decide_eq_false in Ha];
        eexists _, _; (split; [reflexivity|]);
        (split; [exact Hpage|]); (split; [exact Hframe|]);
        (split; [reflexivity|]); cbn.
      * split; [tauto|]. split.
        { split; [intros [Hev|[]]; discriminate | tauto]. }
        split; [lia|]. split; [tauto|]. split; [reflexivity | tauto].
      * split; [tauto|]. split; [tauto|]. split; [lia|].
        split; [reflexivity|]. split; tauto.
    + assert (Hout : ¬ shown_in_frame (view s)) by (rewrite <- Hcur; discriminate).
      eexists _, _; (split; [reflexivity|]);
        (split; [exact Hpage|]); (split; [exact Hframe|]);
        (split; [reflexivity|]); cbn.
      split; [tauto|]. split; [tauto|]. split; [lia|].
      split; [tauto|]. split; [tauto | reflexivity].
Qed.

(** C8: with walletModel null, encryptWallet, unlockWallet, lockWallet,
    usedSendingAddresses and usedReceivingAddresses return at once with no
    effect; backupWallet has no such guard: once a file name was chosen it
    dereferences the null walletModel. *)
Theorem null_walletModel_guards (s : State) :
  walletModel (view s) = None →
  encryptWallet s = Ok tt s [] ∧
  unlockWallet s = Ok tt s [] ∧
  lockWallet s = Ok tt s [] ∧
  usedSendingAddresses s = Ok tt s [] ∧
  usedReceivingAddresses s = Ok tt s [] ∧
  ∀ E, getSaveFileName E ≠ "" → backupWallet E s = Crash NullDereference.
Proof.
  intros Hnull.
  unfold encryptWallet, unlockWallet, lockWallet, usedSendingAddresses,
    usedReceivingAddresses, backupWallet.
  run. rewrite Hnull. repeat split.
  intros E Hname. rewrite (bool_decide_eq_false_2 _ Hname), Hnull. reflexivity.
Qed.

(** C4: processNewTransaction emits no incomingTransaction signal when
    walletModel or clientModel is unset, the node is in initial block
    download, or the transaction table model is absent or processing
    queued transactions; otherwise it emits exactly one, carrying the
    date, display unit, amount, type, address and HTML-escaped label of
    the row at index start. *)
Theorem processNewTransaction_signal (parent : QModelIndex) (start end_ : Z) (s : State) :
  (suppressed (view s) → processNewTransaction parent start end_ s = Ok tt s []) ∧
  (¬ suppressed (view s) →
     ∃ wm ttm,
       walletModel (view s) = Some wm ∧ getTransactionTableModel wm = Some ttm ∧
       processNewTransaction parent start end_ s = Ok tt s
         [incomingTransaction
            (toString (data ttm (index ttm start TransactionTableModel_Date parent)
                         Qt_DisplayRole))
            (getDisplayUnit (getOptionsModel wm))
            (to_qint64 (toULongLong
               (data ttm (index ttm start TransactionTableModel_Amount parent)
                  Qt_EditRole)))
            (toString (data ttm (index ttm start TransactionTableModel_Type parent)
                         Qt_DisplayRole))
            (toString (data ttm (index ttm start 0 parent)
                         TransactionTableModel_AddressRole))
            (HtmlEscape (toString (data ttm (index ttm start 0 parent)
                                     TransactionTableModel_LabelRole)))
            (HtmlEscape (getWalletName wm))]).
Proof.
  unfold suppressed, processNewTransaction. run.
  destruct (walletModel (view s)) as [wm|] eqn:Hwm;
    [| split; [reflexivity | intros H; exfalso; apply H; auto]].
  destruct (clientModel (view s)) as [cm|] eqn:Hcm;
    [| split; [reflexivity | intros H; exfalso; apply H; auto]].
  destruct (isInitialBlockDownload (node cm)) eqn:Hibd;
    [split; [reflexivity | intros H; exfalso; apply H; eauto 6] |].
  destruct (getTransactionTableModel wm) as [ttm|] eqn:Httm;
    [| split; [reflexivity | intros H; exfalso; apply H; eauto 8]].
  destruct (processingQueuedTransactions ttm) eqn:Hq;
    [split; [reflexivity | intros H; exfalso; apply H; eauto 10] |].
  split.
  - intros [H|[H|[(cm' & Heq & H)|(wm' & Heq & [H|(ttm' & Heq' & H)])]]];
      congruence.
  - intros _. exists wm, ttm. repeat split; auto.
Qed.

Lemma append_empty_r (s : string) : s +:+ "" = s.
Proof.
  induction s as [|c s IH]; [reflexivity|].
  change (String c (s +:+ "") = String c s). now rewrite IH.
Qed.

Lemma contains_suffix (before sub : string) : contains sub (before +:+ sub).
Proof. exists before, "". symmetry. apply append_empty_r. Qed.

Lemma gotoLoadPSBT_clipboard_valid (E : Env) (s : State) (bytes : string) :
  DecodeBase64 (clipboard_text E) = (bytes, false) →
  gotoLoadPSBT E true s
    = Ok tt s (QClipboard_text :: DecodeBase64_call (clipboard_text E)
               :: decoded_events s bytes).
Proof.
  intros Hb. unfold gotoLoadPSBT, decoded_events. run. rewrite Hb.
  destruct (DecodeRawPSBT bytes); reflexivity.
Qed.

Lemma gotoLoadPSBT_clipboard_invalid (E : Env) (s : State) (bytes : string) :
  DecodeBase64 (clipboard_text E) = (bytes, true) →
  gotoLoadPSBT E true s
    = Ok tt s [QClipboard_text; DecodeBase64_call (clipboard_text E);
               message (tr "Error")
                 (tr "Unable to decode PSBT from clipboard (invalid base64)") MSG_ERROR].
Proof. intros Hb. unfold gotoLoadPSBT. run. now rewrite Hb. Qed.

Lemma gotoLoadPSBT_file_none (E : Env) (s : State) :
  getOpenFileName E = "" →
  gotoLoadPSBT E false s = Ok tt s [chooser_event].
Proof. intros Hf. unfold gotoLoadPSBT. run. now rewrite Hf. Qed.

Lemma gotoLoadPSBT_file_large (E : Env) (s : State) :
  getOpenFileName E ≠ "" →
  GetFileSize (files E) (getOpenFileName E) MAX_FILE_SIZE_PSBT = MAX_FILE_SIZE_PSBT →
  gotoLoadPSBT E false s
    = Ok tt s [chooser_event;
               GetFileSize_call (getOpenFileName E) MAX_FILE_SIZE_PSBT;
               message (tr "Error") (tr "PSBT file must be smaller than 100 MiB") MSG_ERROR].
Proof.
  intros Hf Hsz. unfold gotoLoadPSBT. run.
  rewrite (bool_decide_eq_false_2 _ Hf), (bool_decide_eq_true_2 _ Hsz).
  reflexivity.
Qed.

Lemma gotoLoadPSBT_file_read (E : Env) (s : State) :
  getOpenFileName E ≠ "" →
  GetFileSize (files E) (getOpenFileName E) MAX_FILE_SIZE_PSBT ≠ MAX_FILE_SIZE_PSBT →
  gotoLoadPSBT E false s
    = Ok tt s (chooser_event
               :: GetFileSize_call (getOpenFileName E) MAX_FILE_SIZE_PSBT
               :: ifstream_read (getOpenFileName E)
               :: decoded_events s (read_ifstream (files E) (getOpenFileName E))).
Proof.
  intros Hf Hsz. unfold gotoLoadPSBT, decoded_events. run.
  rewrite (bool_decide_eq_false_2 _ Hf), (bool_decide_eq_false_2 _ Hsz).
  destruct (DecodeRawPSBT _); reflexivity.
Qed.

Lemma decoded_events_outcome (s : State) (bytes : string) (pre : list Event) :
  List.filter is_message pre = [] →
  List.filter is_PSBTOperationsDialog pre = [] →
  decode_outcome s bytes (pre ++ decoded_events s bytes).
Proof.
  intros Hm Hd. unfold decode_outcome, decoded_events, count.
  rewrite !List.filter_app, Hm, Hd.
  destruct (DecodeRawPSBT bytes) as [psbtx|error]; cbn.
  - split; reflexivity.
  - split; [|reflexivity]. eexists. split; [reflexivity|].
    apply contains_suffix.
Qed.

(** C1: on every call of gotoLoadPSBT, if DecodeRawPSBT fails on the
    assembled data (from the clipboard or from the file) the slot emits
    exactly one error message, whose text contains the decoder's error
    string, and returns without constructing or opening a
    PSBTOperationsDialog; if DecodeRawPSBT succeeds, a
    PSBTOperationsDialog is opened with the decoded transaction.  The data
    is assembled, and the decoder called on it, unless the base64 text is
    invalid, no file was chosen or the file is too large. *)
Theorem gotoLoadPSBT_decoder (E : Env) (from_clipboard : bool) (s : State) :
  ∃ evs, gotoLoadPSBT E from_clipboard s = Ok tt s evs ∧
    (∀ bytes, In (DecodeRawPSBT_call bytes) evs → decode_outcome s bytes evs) ∧
    (from_clipboard = true → snd (DecodeBase64 (clipboard_text E)) = false →
       In (DecodeRawPSBT_call (fst (DecodeBase64 (clipboard_text E)))) evs) ∧
    (from_clipboard = false → getOpenFileName E ≠ "" →
       GetFileSize (files E) (getOpenFileName E) MAX_FILE_SIZE_PSBT ≠ MAX_FILE_SIZE_PSBT →
       In (DecodeRawPSBT_call (read_ifstream (files E) (getOpenFileName E))) evs).
Proof.
  assert (Hcall : ∀ bytes b, In (DecodeRawPSBT_call bytes) (decoded_events s b) →
                             bytes = b).
  { intros bytes b [Heq|Hin]; [congruence|].
    destruct (DecodeRawPSBT b); cbn in Hin;
      repeat (destruct Hin as [Hin|Hin]; [discriminate|]); destruct Hin. }
  destruct from_clipboard.
  - destruct (DecodeBase64 (clipboard_text E)) as [b invalid] eqn:Hb.
    destruct invalid.
    + rewrite (gotoLoadPSBT_clipboard_invalid E s b Hb).
      eexists. split; [reflexivity|]. cbn. split; [|split; discriminate].
      intros bytes [Hin|[Hin|[Hin|[]]]]; discriminate.
    + rewrite (gotoLoadPSBT_clipboard_valid E s b Hb).
      eexists. split; [reflexivity|]. split; [|split; [|discriminate]].
      * intros bytes [Hin|[Hin|Hin]]; try discriminate.
        apply Hcall in Hin. subst bytes.
        apply (decoded_events_outcome s b [_; _]); reflexivity.
      * intros _ _. cbn. auto.
  - destruct (decide (getOpenFileName E = "")) as [Hf|Hf].
    + rewrite (gotoLoadPSBT_file_none E s Hf).
      eexists. split; [reflexivity|]. split; [|split; [discriminate|tauto]].
      intros bytes [Hin|[]]. discriminate.
    + destruct (decide (GetFileSize (files E) (getOpenFileName E) MAX_FILE_SIZE_PSBT
                        = MAX_FILE_SIZE_PSBT)) as [Hsz|Hsz].
      * rewrite (gotoLoadPSBT_file_large E s Hf Hsz).
        eexists. split; [reflexivity|]. split; [|split; [discriminate|tauto]].
        intros bytes [Hin|[Hin|[Hin|[]]]]; discriminate.
      * rewrite (gotoLoadPSBT_file_read E s Hf Hsz).
        eexists. split; [reflexivity|]. split; [|split; [discriminate|]].
        -- intros bytes [Hin|[Hin|[Hin|Hin]]]; try discriminate.
           apply Hcall in Hin. subst bytes.
           apply (decoded_events_outcome s _ [_; _; _]); reflexivity.
        -- intros _ _ _. cbn. auto.
Qed.

(** C2: on every call gotoLoadPSBT(from_clipboard = true) whose clipboard
    text DecodeBase64 reports invalid, the slot emits exactly one error
    message, "Unable to decode PSBT from clipboard (invalid base64)", and
    returns without calling DecodeRawPSBT and without opening a dialog:
    the whole call is the clipboard read, the DecodeBase64 call and that
    message, and the state is left as it was. *)
Theorem gotoLoadPSBT_invalid_base64 (E : Env) (s : State) :
  snd (DecodeBase64 (clipboard_text E)) = true →
  ∃ evs, gotoLoadPSBT E true s = Ok tt s evs ∧
    evs = [QClipboard_text; DecodeBase64_call (clipboard_text E);
           message (tr "Error")
             (tr "Unable to decode PSBT from clipboard (invalid base64)") MSG_ERROR] ∧
    List.filter is_message evs
      = [message (tr "Error")
           (tr "Unable to decode PSBT from clipboard (invalid base64)") MSG_ERROR] ∧
    count is_DecodeRawPSBT evs = 0%nat ∧
    count is_PSBTOperationsDialog evs = 0%nat ∧
    count is_AskPassphraseDialog evs = 0%nat.
Proof.
  intros Hinv.
  destruct (DecodeBase64 (clipboard_text E)) as [b invalid] eqn:Hb.
  cbn in Hinv. subst invalid.
  rewrite (gotoLoadPSBT_clipboard_invalid E s b Hb).
  eexists. split; [reflexivity|]. repeat split.
Qed.

Lemma GetFileSize_at_least (fs : gmap string File) (path : string) (f : File) (max : Z) :
  fs !! path = Some f → max ≤ file_size f → GetFileSize fs path max = max.
Proof. intros Hf Hsz. unfold GetFileSize. rewrite Hf. lia. Qed.

(** C3: in gotoLoadPSBT(from_clipboard = false), for every selected file
    whose size is at least MAX_FILE_SIZE_PSBT the slot emits the error
    message "PSBT file must be smaller than 100 MiB" and returns without
    reading the file and without calling DecodeRawPSBT; when the file
    chooser returns an empty name the slot returns with no message and no
    effect. *)
Theorem gotoLoadPSBT_file_gate (E : Env) (s : State) :
  (∀ f, getOpenFileName E ≠ "" →
        files E !! getOpenFileName E = Some f →
        MAX_FILE_SIZE_PSBT ≤ file_size f →
     ∃ evs, gotoLoadPSBT E false s = Ok tt s evs ∧
       List.filter is_message evs
         = [message (tr "Error") (tr "PSBT file must be smaller than 100 MiB") MSG_ERROR] ∧
       count is_ifstream_read evs = 0%nat ∧
       count is_DecodeRawPSBT evs = 0%nat ∧
       count is_PSBTOperationsDialog evs = 0%nat) ∧
  (getOpenFileName E = "" →
     gotoLoadPSBT E false s = Ok tt s [chooser_event] ∧
     count is_message [chooser_event] = 0%nat).
Proof.
  split.
  - intros f Hname Hf Hsz.
    rewrite (gotoLoadPSBT_file_large E s Hname (GetFileSize_at_least _ _ f _ Hf Hsz)).
    eexists. split; [reflexivity|]. repeat split.
  - intros Hname. rewrite (gotoLoadPSBT_file_none E s Hname). split; reflexivity.
Qed.

Lemma backupWallet_no_file (E : Env) (s : State) :
  getSaveFileName E = "" →
  backupWallet E s
    = Ok tt s [GUIUtil_getSaveFileName (tr "Backup Wallet") "" (tr "Wallet Data" +:+ filter_dat)].
Proof. intros Hf. unfold backupWallet. run. now rewrite Hf. Qed.

Lemma backupWallet_with_file (E : Env) (s : State) (wm : WalletModel) :
  getSaveFileName E ≠ "" → walletModel (view s) = Some wm →
  backupWallet E s
    = Ok tt s [GUIUtil_getSaveFileName (tr "Backup Wallet") "" (tr "Wallet Data" +:+ filter_dat);
               Wallet_backupWallet (getSaveFileName E);
               if backupWallet_result (wallet wm) (getSaveFileName E)
               then backup_successful (getSaveFileName E)
               else backup_failed (getSaveFileName E)].
Proof.
  intros Hf Hwm. unfold backupWallet. run.
  rewrite (bool_decide_eq_false_2 _ Hf), Hwm.
  destruct (backupWallet_result (wallet wm) (getSaveFileName E)); reflexivity.
Qed.

(** [backupWallet] is undefined exactly on a chosen file with no model. *)
Lemma backupWallet_crash_iff (E : Env) (s : State) (f : Fault) :
  backupWallet E s = Crash f ↔
  getSaveFileName E ≠ "" ∧ walletModel (view s) = None ∧ f = NullDereference.
Proof.
  destruct (decide (getSaveFileName E = "")) as [Hf|Hf].
  - rewrite (backupWallet_no_file E s Hf). split; [discriminate | tauto].
  - destruct (walletModel (view s)) as [wm|] eqn:Hwm.
    + rewrite (backupWallet_with_file E s wm Hf Hwm).
      split; [discriminate | intros (_ & Hn & _); discriminate].
    + unfold backupWallet. run. rewrite (bool_decide_eq_false_2 _ Hf), Hwm.
      split; [intros [= <-]; auto | intros (_ & _ & ->); reflexivity].
Qed.

(** C5, amended: on every call of backupWallet, if the chosen file name is
    empty the slot returns without calling wallet().backupWallet and
    without a message; otherwise, walletModel being non-null, it calls
    wallet().backupWallet(filename) exactly once and emits the "Backup
    Failed" error message if and only if the call returned false, the
    "Backup Successful" information message if and only if it returned
    true. *)
Theorem backupWallet_with_model (E : Env) (s : State) :
  (getSaveFileName E ≠ "" → is_Some (walletModel (view s))) →
  backupWallet_spec E s.
Proof.
  intros Hmodel. unfold backupWallet_spec. split.
  - intros Hf. rewrite (backupWallet_no_file E s Hf).
    eexists. split; [reflexivity|]. split; reflexivity.
  - intros Hf. destruct (Hmodel Hf) as [wm Hwm].
    rewrite (backupWallet_with_file E s wm Hf Hwm).
    eexists. split; [reflexivity|].
    unfold backup_successful, backup_failed, count.
    destruct (backupWallet_result (wallet wm) (getSaveFileName E)) eqn:Hres; cbn;
      (split; [reflexivity|]); (split; [reflexivity|]);
      intros wm' Hwm'; assert (wm' = wm) by congruence; subst wm'; rewrite Hres;
      split;
      (split;
       [intros [Hev|[Hev|[Hev|[]]]]; (discriminate || reflexivity)
       | intros Heq; (discriminate || (cbn; auto))]).
Qed.

Lemma call_dialog_live (p : loc) (f : QProgressDialog → QProgressDialog)
    (v : WalletView) (h : gmap loc QProgressDialog) (d : QProgressDialog) :
  h !! p = Some d →
  call_dialog p f {| view := v; dialogs := h |}
    = Ok tt {| view := v; dialogs := <[p := f d]> h |} [].
Proof. intros Hd. unfold call_dialog. run. now rewrite Hd. Qed.

Lemma ask_dialog_live {A} (p : loc) (g : QProgressDialog → A)
    (s : State) (d : QProgressDialog) :
  dialogs s !! p = Some d → ask_dialog p g s = Ok (g d) s [].
Proof. intros Hd. unfold ask_dialog. run. now rewrite Hd. Qed.

Lemma fresh_dialog (h : gmap loc QProgressDialog) : h !! fresh (dom h) = None.
Proof. apply not_elem_of_dom, is_fresh. Qed.

(** The dialog that [showProgress] leaves behind at [nProgress = 0]. *)
Lemma showProgress_start (title : string) (s : State) :
  showProgress title 0 s
    = Ok tt (with_dialog (Some (fresh (dom (dialogs s))))
               (<[fresh (dom (dialogs s)) :=
                    setValue 0 (setAutoClose false (setWindowModality ApplicationModal
                      (PolishProgressDialog (QProgressDialog_new title (tr "Cancel") 0 100))))]>
                  (dialogs s)) s) [].
Proof.
  unfold showProgress, new_dialog, with_dialog. run.
  rewrite (bool_decide_eq_true_2 (0 = 0) eq_refl). cbv beta.
  set (p := fresh (dom (dialogs s))).
  do 4 (rewrite (call_dialog_live p _ _ _ _ (lookup_insert_eq _ _ _));
        cbv beta iota; rewrite insert_insert_eq).
  reflexivity.
Qed.

Lemma showProgress_finish (title : string) (s : State) (p : loc) (d : QProgressDialog) :
  progressDialog (view s) = Some p → dialogs s !! p = Some d →
  showProgress title 100 s
    = Ok tt (with_dialog None (<[p := set_deleteLater (close d)]> (dialogs s)) s) [].
Proof.
  intros Hp Hd. unfold showProgress, with_dialog. run.
  rewrite (bool_decide_eq_false_2 (100 = 0)) by discriminate.
  rewrite (bool_decide_eq_true_2 (100 = 100) eq_refl). cbv beta.
  rewrite Hp. destruct s as [v h]. cbn [view dialogs] in *.
  rewrite (call_dialog_live p _ _ _ _ Hd). cbv beta iota.
  rewrite (call_dialog_live p _ _ _ _ (lookup_insert_eq _ _ _)). cbv beta iota.
  now rewrite insert_insert_eq.
Qed.

Lemma showProgress_no_dialog (title : string) (nProgress : Z) (s : State) :
  nProgress ≠ 0 → progressDialog (view s) = None →
  showProgress title nProgress s = Ok tt s [].
Proof.
  intros H0 Hp. unfold showProgress. run.
  rewrite (bool_decide_eq_false_2 _ H0).
  destruct (bool_decide (nProgress = 100)); cbv beta iota; now rewrite Hp.
Qed.

Lemma showProgress_update (title : string) (nProgress : Z) (s : State)
    (p : loc) (d : QProgressDialog) :
  nProgress ≠ 0 → nProgress ≠ 100 →
  progressDialog (view s) = Some p → dialogs s !! p = Some d →
  wasCanceled d = false →
  showProgress title nProgress s
    = Ok tt {| view := view s; dialogs := <[p := setValue nProgress d]> (dialogs s) |} [].
Proof.
  intros H0 H100 Hp Hd Hc. unfold showProgress. run.
  rewrite (bool_decide_eq_false_2 _ H0), (bool_decide_eq_false_2 _ H100).
  cbv beta iota. rewrite Hp, (ask_dialog_live p _ s d Hd), Hc.
  destruct s as [v h]. now rewrite (call_dialog_live p _ _ _ _ Hd).
Qed.

Lemma showProgress_abort (title : string) (nProgress : Z) (s : State)
    (p : loc) (d : QProgressDialog) :
  nProgress ≠ 0 → nProgress ≠ 100 →
  progressDialog (view s) = Some p → dialogs s !! p = Some d →
  wasCanceled d = true →
  showProgress title nProgress s
    = match walletModel (view s) with
      | Some _ => Ok tt s [Wallet_abortRescan]
      | None => Crash NullDereference
      end.
Proof.
  intros H0 H100 Hp Hd Hc. unfold showProgress. run.
  rewrite (bool_decide_eq_false_2 _ H0), (bool_decide_eq_false_2 _ H100).
  cbv beta iota. rewrite Hp, (ask_dialog_live p _ s d Hd), Hc.
  destruct (walletModel (view s)); reflexivity.
Qed.

(** At 100 a call returns only from the two states the protocol knows. *)
Lemma showProgress_finish_inv (title : string) (s s' : State) (evs : list Event) :
  showProgress title 100 s = Ok tt s' evs → evs = [].
Proof.
  unfold showProgress. run.
  rewrite (bool_decide_eq_false_2 (100 = 0)) by discriminate.
  rewrite (bool_decide_eq_true_2 (100 = 100) eq_refl). cbv beta.
  destruct (progressDialog (view s)) as [p|]; [|congruence].
  unfold call_dialog. run.
  destruct (dialogs s !! p) as [d|]; [|discriminate].
  cbn [view dialogs]. rewrite lookup_insert_eq. cbn [view dialogs app].
  congruence.
Qed.

(** C6, amended: showProgress implements the rescan-progress protocol: a
    call with nProgress = 0 creates a new application-modal progress
    dialog set to value 0; a call with nProgress = 100 closes and clears
    the dialog if one exists; for any other nProgress with a live dialog,
    wallet().abortRescan() is called if and only if the dialog was
    cancelled, walletModel being non-null in that case, and otherwise the
    dialog's value is set to nProgress.  abortRescan is never called at
    nProgress 0 or 100 or when no dialog exists. *)
Theorem showProgress_protocol (title : string) (nProgress : Z) (s : State) :
  (reaches_wallet nProgress s → is_Some (walletModel (view s))) →
  showProgress_spec title nProgress s.
Proof.
  intros Hmodel. unfold showProgress_spec. repeat apply conj.
  - intros ->. rewrite showProgress_start.
    eexists _, _. split; [apply fresh_dialog|]. split; [reflexivity|].
    repeat split.
  - intros ->. split.
    + intros Hp. now apply showProgress_no_dialog.
    + intros p d Hp Hd. now apply showProgress_finish.
  - intros H0 H100. split.
    + intros Hp. now apply showProgress_no_dialog.
    + intros p d Hp Hd. destruct (wasCanceled d) eqn:Hc.
      * destruct Hmodel as [wm Hwm].
        { split; [exact H0|]. split; [exact H100|]. exists p, d. auto. }
        rewrite (showProgress_abort title nProgress s p d H0 H100 Hp Hd Hc), Hwm.
        exists s, [Wallet_abortRescan]. split; [reflexivity|].
        split; [split; reflexivity|]. split; [auto | discriminate].
      * rewrite (showProgress_update title nProgress s p d H0 H100 Hp Hd Hc).
        eexists _, []. split; [reflexivity|].
        split; [split; discriminate|]. split; [discriminate | auto].
  - intros Hcase s' evs Hrun.
    destruct (decide (nProgress = 0)) as [->|H0].
    { rewrite showProgress_start in Hrun. injection Hrun as _ <-. reflexivity. }
    destruct Hcase as [?|[->|Hp]]; [contradiction| |].
    + now rewrite (showProgress_finish_inv title s s' evs Hrun).
    + rewrite (showProgress_no_dialog title nProgress s H0 Hp) in Hrun.
      injection Hrun as _ <-. reflexivity.
Qed.

(** X1: the pointer stays valid: whenever showProgress returns from a
    state whose progressDialog is null or points to a live dialog, it
    leaves such a state again, whether or not a wallet model is set. *)
Lemma showProgress_keeps_live (title : string) (nProgress : Z)
    (s s' : State) (evs : list Event) :
  progressDialog_live s →
  showProgress title nProgress s = Ok tt s' evs →
  progressDialog_live s'.
Proof.
  intros Hlive Hrun.
  destruct (decide (nProgress = 0)) as [->|H0].
  { rewrite showProgress_start in Hrun. injection Hrun as <- _.
    intros p [= <-]. cbn. rewrite lookup_insert_eq. eauto. }
  destruct (progressDialog (view s)) as [p|] eqn:Hp.
  - destruct (Hlive p Hp) as [d Hd].
    destruct (decide (nProgress = 100)) as [->|H100].
    { rewrite (showProgress_finish title s p d Hp Hd) in Hrun.
      injection Hrun as <- _. intros q [=]. }
    destruct (wasCanceled d) eqn:Hc.
    + rewrite (showProgress_abort title nProgress s p d H0 H100 Hp Hd Hc) in Hrun.
      destruct (walletModel (view s)); [|discriminate].
      injection Hrun as <- _. exact Hlive.
    + rewrite (showProgress_update title nProgress s p d H0 H100 Hp Hd Hc) in Hrun.
      injection Hrun as <- _. intros q Hq. cbn in *.
      assert (q = p) by congruence. subst q. rewrite lookup_insert_eq. eauto.
  - rewrite (showProgress_no_dialog title nProgress s H0 Hp) in Hrun.
    injection Hrun as <- _. exact Hlive.
Qed.

End Claims.

(** ** Beyond the specification: properties read off the source *)

Section Coverage.
Context `{X : Collaborators}.

Ltac run :=
  cbv [mbind mret M_bind M_ret bind ret emit crash get_view put_view
       get_dialogs put_dialogs setCurrentWidget]; cbn [view dialogs app].

Ltac runW :=
  cbv [mbind mret MW_bind MW_ret bindW retW emitW lift
       M_bind M_ret bind ret emit crash get_view put_view
       get_dialogs put_dialogs setCurrentWidget];
  cbn [view dialogs app fmap list_fmap this clientModel walletModel walletFrame
       progressDialog currentWidget set_clientModel set_walletModel
       set_currentWidget].

Lemma showProgress_dangling (title : string) (nProgress : Z) (s : State) (p : loc) :
  nProgress ≠ 0 →
  progressDialog (view s) = Some p → dialogs s !! p = None →
  showProgress title nProgress s = Crash DanglingPointer.
Proof.
  intros H0 Hp Hd. unfold showProgress, call_dialog, ask_dialog. run.
  rewrite (bool_decide_eq_false_2 _ H0).
  destruct (bool_decide (nProgress = 100)); cbv beta iota; rewrite Hp, Hd;
    reflexivity.
Qed.

Lemma showProgress_inv (title : string) (nProgress : Z) (s s' : State) (evs : list Event) :
  showProgress title nProgress s = Ok tt s' evs →
  showProgress_returns title nProgress s s' evs.
Proof.
  intros Hrun.
  destruct (decide (nProgress = 0)) as [->|H0].
  { rewrite showProgress_start in Hrun. injection Hrun as <- <-.
    now constructor. }
  destruct (progressDialog (view s)) as [p|] eqn:Hp.
  2:{ rewrite (showProgress_no_dialog title nProgress s H0 Hp) in Hrun.
      injection Hrun as <- <-. now constructor. }
  destruct (dialogs s !! p) as [d|] eqn:Hd.
  2:{ now rewrite (showProgress_dangling title nProgress s p H0 Hp Hd) in Hrun. }
  destruct (decide (nProgress = 100)) as [->|H100].
  { rewrite (showProgress_finish title s p d Hp Hd) in Hrun.
    injection Hrun as <- <-. now apply returns_finished. }
  destruct (wasCanceled d) eqn:Hc.
  - rewrite (showProgress_abort title nProgress s p d H0 H100 Hp Hd Hc) in Hrun.
    destruct (walletModel (view s)) as [wm|] eqn:Hwm; [|discriminate].
    injection Hrun as <- <-. apply (returns_aborted _ _ _ p d); eauto.
  - rewrite (showProgress_update title nProgress s p d H0 H100 Hp Hd Hc) in Hrun.
    injection Hrun as <- <-. now apply (returns_updated _ _ _ p d).
Qed.

Lemma showProgress_ready (title : string) (nProgress : Z) (s : State) :
  ready s →
  ∃ s' evs, showProgress title nProgress s = Ok tt s' evs ∧ ready s'.
Proof.
  intros [Hwm Hlive].
  assert (Hret : ∃ s' evs, showProgress title nProgress s = Ok tt s' evs).
  { destruct (decide (nProgress = 0)) as [->|H0].
    { rewrite showProgress_start. eauto. }
    destruct (progressDialog (view s)) as [p|] eqn:Hp.
    2:{ rewrite (showProgress_no_dialog title nProgress s H0 Hp). eauto. }
    destruct (Hlive p Hp) as [d Hd].
    destruct (decide (nProgress = 100)) as [->|H100].
    { rewrite (showProgress_finish title s p d Hp Hd). eauto. }
    destruct (wasCanceled d) eqn:Hc.
    - rewrite (showProgress_abort title nProgress s p d H0 H100 Hp Hd Hc).
      destruct Hwm as [wm ->]. eauto.
    - rewrite (showProgress_update title nProgress s p d H0 H100 Hp Hd Hc). eauto. }
  destruct Hret as (s' & evs & Hrun). exists s', evs. split; [exact Hrun|].
  destruct (showProgress_inv _ _ _ _ _ Hrun); split; cbn; auto;
    unfold progressDialog_live, with_dialog; cbn.
  - intros q [= <-]. rewrite lookup_insert_eq. eauto.
  - intros q [=].
  - intros q Hq. assert (q = p) by congruence. subst q.
    rewrite lookup_insert_eq. eauto.
Qed.

(** X2: The frame of [showProgress]: whenever it returns, the only member it
    may have written is [progressDialog]; no dialog is removed from the
    heap and every dialog other than the one the member pointed to is
    left as it was; the only call it can make is one [abortRescan]. *)
Theorem showProgress_frame (title : string) (nProgress : Z)
    (s s' : State) (evs : list Event) :
  showProgress title nProgress s = Ok tt s' evs →
  (this (view s') = this (view s) ∧
   clientModel (view s') = clientModel (view s) ∧
   walletModel (view s') = walletModel (view s) ∧
   walletFrame (view s') = walletFrame (view s) ∧
   currentWidget (view s') = currentWidget (view s)) ∧
  dom (dialogs s) ⊆ dom (dialogs s') ∧
  (∀ q d, dialogs s !! q = Some d → progressDialog (view s) ≠ Some q →
          dialogs s' !! q = Some d) ∧
  (evs = [] ∨ evs = [Wallet_abortRescan]).
Proof.
  intros Hrun.
  destruct (showProgress_inv _ _ _ _ _ Hrun) as [H0|H0 Hp|p d H100 Hp Hd|p d H0 H100 Hp Hd Hc Hwm|p d H0 H100 Hp Hd Hc];
    cbn [view dialogs with_dialog set_progressDialog this clientModel walletModel
         walletFrame currentWidget];
    (split; [tauto|]); (split; [try rewrite dom_insert_L; set_solver|]);
    (split; [|auto]); intros q dq Hq Hne.
  - rewrite lookup_insert_ne; [exact Hq|].
    intros <-. rewrite fresh_dialog in Hq. discriminate.
  - exact Hq.
  - rewrite lookup_insert_ne; [exact Hq | congruence].
  - exact Hq.
  - rewrite lookup_insert_ne; [exact Hq | congruence].
Qed.

(** X3: Restarting leaks: a call with nProgress = 0 while a dialog is still
    live overwrites the pointer with a fresh address and leaves the old
    dialog on the heap exactly as it was, neither closed nor scheduled for
    deletion. *)
Theorem showProgress_restart_leaks (title : string) (s : State)
    (p : loc) (d : QProgressDialog) :
  progressDialog (view s) = Some p → dialogs s !! p = Some d →
  ∃ p' s', showProgress title 0 s = Ok tt s' [] ∧
           progressDialog (view s') = Some p' ∧ p' ≠ p ∧
           dialogs s' !! p = Some d.
Proof.
  intros Hp Hd. rewrite showProgress_start.
  assert (Hne : fresh (dom (dialogs s)) ≠ p).
  { intros Heq. pose proof (fresh_dialog (dialogs s)) as Hf.
    rewrite Heq in Hf. congruence. }
  eexists _, _. split; [reflexivity|]. cbn.
  split; [reflexivity|]. split; [exact Hne|].
  now rewrite lookup_insert_ne.
Qed.

(** X4: A rescan from start to finish: from any state, a call with 0 followed
    by a call with 100 returns twice without any call on the wallet, ends
    with a null pointer, leaves the dialog it created closed and scheduled
    for deletion, and leaves every older dialog untouched. *)
Theorem showProgress_start_then_finish (title title' : string) (s : State) :
  ∃ p d s1 s2,
    showProgress title 0 s = Ok tt s1 [] ∧
    showProgress title' 100 s1 = Ok tt s2 [] ∧
    dialogs s !! p = None ∧
    progressDialog (view s2) = None ∧
    dialogs s2 !! p = Some d ∧ closed d = true ∧ deleteLater d = true ∧
    labelText d = title ∧
    ∀ q, q ≠ p → dialogs s2 !! q = dialogs s !! q.
Proof.
  pose proof (showProgress_start title s) as Hstart.
  set (p := fresh (dom (dialogs s))) in *. set (d0 := setValue 0 _) in *.
  set (s1 := with_dialog (Some p) (<[p:=d0]> (dialogs s)) s) in *.
  assert (Hp : progressDialog (view s1) = Some p) by reflexivity.
  assert (Hd : dialogs s1 !! p = Some d0) by apply lookup_insert_eq.
  pose proof (showProgress_finish title' s1 p d0 Hp Hd) as Hfinish.
  exists p, (set_deleteLater (close d0)), s1. eexists.
  split; [exact Hstart|]. split; [exact Hfinish|].
  split; [apply fresh_dialog|]. cbn.
  split; [reflexivity|]. split; [apply lookup_insert_eq|].
  repeat (split; [reflexivity|]).
  intros q Hq. now rewrite !lookup_insert_ne by congruence.
Qed.

(** X5: A fresh dialog is not cancelled: a progress report other than 0
    and 100 that follows a start with nothing in between sets the bar and
    makes no call on the wallet, so it returns even when walletModel is
    null.  This is lost as soon as the user presses Cancel in between:
    the same report then calls abortRescan, or dereferences the null
    walletModel. *)
Theorem showProgress_start_then_report (title title' : string) (nProgress : Z)
    (s : State) :
  nProgress ≠ 0 → nProgress ≠ 100 →
  ∃ p d s1 s2,
    showProgress title 0 s = Ok tt s1 [] ∧
    showProgress title' nProgress s1 = Ok tt s2 [] ∧
    progressDialog (view s2) = Some p ∧
    dialogs s2 !! p = Some d ∧ value d = nProgress ∧ wasCanceled d = false ∧
    ∃ s1c,
      perform (user_presses_cancel p) s1 = OkW tt s1c [] ∧
      showProgress title' nProgress s1c
        = match walletModel (view s) with
          | Some _ => Ok tt s1c [Wallet_abortRescan]
          | None => Crash NullDereference
          end.
Proof.
  intros H0 H100.
  pose proof (showProgress_start title s) as Hstart.
  set (p := fresh (dom (dialogs s))) in *. set (d0 := setValue 0 _) in *.
  set (s1 := with_dialog (Some p) (<[p:=d0]> (dialogs s)) s) in *.
  assert (Hp : progressDialog (view s1) = Some p) by reflexivity.
  assert (Hd : dialogs s1 !! p = Some d0) by apply lookup_insert_eq.
  pose proof (showProgress_update title' nProgress s1 p d0 H0 H100 Hp Hd eq_refl)
    as Hreport.
  exists p, (setValue nProgress d0), s1. eexists.
  split; [exact Hstart|]. split; [exact Hreport|]. cbn [view dialogs].
  split; [reflexivity|]. split; [apply lookup_insert_eq|].
  split; [reflexivity|]. split; [reflexivity|].
  set (s1c := {| view := view s1; dialogs := alter cancel p (dialogs s1) |}).
  exists s1c. split; [reflexivity|].
  assert (Hdc : dialogs s1c !! p = Some (cancel d0)).
  { change (alter cancel p (dialogs s1) !! p = Some (cancel d0)).
    rewrite lookup_alter. case_decide; [|congruence]. now rewrite Hd. }
  exact (showProgress_abort title' nProgress s1c p (cancel d0) H0 H100 Hp Hdc eq_refl).
Qed.

(** X6: Finishing twice is finishing once: after a call with 100 returned, a
    second one changes nothing and makes no call. *)
Theorem showProgress_finish_idempotent (title title' : string)
    (s s1 : State) (evs : list Event) :
  showProgress title 100 s = Ok tt s1 evs →
  progressDialog (view s1) = None ∧
  showProgress title' 100 s1 = Ok tt s1 [].
Proof.
  intros Hrun.
  assert (Hnull : progressDialog (view s1) = None).
  { destruct (showProgress_inv _ _ _ _ _ Hrun); try reflexivity;
      try assumption; lia. }
  split; [exact Hnull|].
  apply showProgress_no_dialog; [lia | exact Hnull].
Qed.



(** Every call of [gotoLoadPSBT] returns along one of five paths. *)
Lemma gotoLoadPSBT_paths (E : Env) (from_clipboard : bool) (s : State) :
  ∃ evs, gotoLoadPSBT E from_clipboard s = Ok tt s evs ∧
    ((from_clipboard = true ∧ snd (DecodeBase64 (clipboard_text E)) = true ∧
      evs = [QClipboard_text; DecodeBase64_call (clipboard_text E);
             message (tr "Error")
               (tr "Unable to decode PSBT from clipboard (invalid base64)") MSG_ERROR]) ∨
     (from_clipboard = true ∧ snd (DecodeBase64 (clipboard_text E)) = false ∧
      evs = QClipboard_text :: DecodeBase64_call (clipboard_text E)
            :: decoded_events s (fst (DecodeBase64 (clipboard_text E)))) ∨
     (from_clipboard = false ∧ getOpenFileName E = "" ∧ evs = [chooser_event]) ∨
     (from_clipboard = false ∧ getOpenFileName E ≠ "" ∧
      GetFileSize (files E) (getOpenFileName E) MAX_FILE_SIZE_PSBT = MAX_FILE_SIZE_PSBT ∧
      evs = [chooser_event;
             GetFileSize_call (getOpenFileName E) MAX_FILE_SIZE_PSBT;
             message (tr "Error") (tr "PSBT file must be smaller than 100 MiB")
               MSG_ERROR]) ∨
     (from_clipboard = false ∧ getOpenFileName E ≠ "" ∧
      GetFileSize (files E) (getOpenFileName E) MAX_FILE_SIZE_PSBT ≠ MAX_FILE_SIZE_PSBT ∧
      evs = chooser_event
            :: GetFileSize_call (getOpenFileName E) MAX_FILE_SIZE_PSBT
            :: ifstream_read (getOpenFileName E)
            :: decoded_events s (read_ifstream (files E) (getOpenFileName E)))).
Proof.
  destruct from_clipboard.
  - destruct (DecodeBase64 (clipboard_text E)) as [b invalid] eqn:Hb.
    destruct invalid.
    + rewrite (gotoLoadPSBT_clipboard_invalid E s b Hb). eexists.
      split; [reflexivity|]. left. auto.
    + rewrite (gotoLoadPSBT_clipboard_valid E s b Hb). eexists.
      split; [reflexivity|]. right. left. auto.
  - destruct (decide (getOpenFileName E = "")) as [Hf|Hf].
    + rewrite (gotoLoadPSBT_file_none E s Hf). eexists.
      split; [reflexivity|]. right. right. left. auto.
    + destruct (decide (GetFileSize (files E) (getOpenFileName E) MAX_FILE_SIZE_PSBT
                        = MAX_FILE_SIZE_PSBT)) as [Hsz|Hsz].
      * rewrite (gotoLoadPSBT_file_large E s Hf Hsz). eexists.
        split; [reflexivity|]. right. right. right. left. auto.
      * rewrite (gotoLoadPSBT_file_read E s Hf Hsz). eexists.
        split; [reflexivity|]. do 4 right. auto.
Qed.

Lemma decoded_events_counts (s : State) (bytes : string) :
  (count is_message (decoded_events s bytes)
   + count is_PSBTOperationsDialog_exec (decoded_events s bytes) = 1)%nat ∧
  count is_DecodeRawPSBT (decoded_events s bytes) = 1%nat ∧
  count is_clipboard (decoded_events s bytes) = 0%nat ∧
  count is_file_system (decoded_events s bytes) = 0%nat.
Proof.
  unfold decoded_events, count.
  destruct (DecodeRawPSBT bytes); cbn; auto.
Qed.

(** X8: [gotoLoadPSBT] has one outcome per call: it never changes the state,
    calls the decoder at most once, and ends with either one error
    message or one executed PSBTOperationsDialog, never both; it ends
    with neither exactly when the file chooser was cancelled. *)
Theorem gotoLoadPSBT_one_outcome (E : Env) (from_clipboard : bool) (s : State) :
  ∃ evs, gotoLoadPSBT E from_clipboard s = Ok tt s evs ∧
    (count is_DecodeRawPSBT evs ≤ 1)%nat ∧
    (count is_message evs + count is_PSBTOperationsDialog_exec evs ≤ 1)%nat ∧
    ((count is_message evs + count is_PSBTOperationsDialog_exec evs = 0)%nat ↔
       from_clipboard = false ∧ getOpenFileName E = "").
Proof.
  destruct (gotoLoadPSBT_paths E from_clipboard s)
    as (evs & Hrun & [(-> & Hi & ->)|[(-> & Hi & ->)|[(-> & Hf & ->)|
         [(-> & Hf & Hsz & ->)|(-> & Hf & Hsz & ->)]]]]);
    eexists; (split; [exact Hrun|]).
  - cbn. split; [lia|]. split; [lia|].
    split; [discriminate | intros [? _]; discriminate].
  - pose proof (decoded_events_counts s (fst (DecodeBase64 (clipboard_text E))))
      as (Hout & Hdec & _).
    unfold count in *. cbn [List.filter is_DecodeRawPSBT is_message
                            is_PSBTOperationsDialog_exec].
    split; [lia|]. split; [lia|].
    split; [lia | intros [? _]; discriminate].
  - cbn. split; [lia|]. split; [lia|]. split; auto.
  - cbn. split; [lia|]. split; [lia|].
    split; [discriminate | intros [_ ?]; contradiction].
  - pose proof (decoded_events_counts s (read_ifstream (files E) (getOpenFileName E)))
      as (Hout & Hdec & _).
    unfold count in *. cbn [List.filter is_DecodeRawPSBT is_message
                            is_PSBTOperationsDialog_exec chooser_event].
    split; [lia|]. split; [lia|].
    split; [lia | intros [_ ?]; contradiction].
Qed.

(** X9: The two sources of [gotoLoadPSBT] are kept apart: a call from the
    clipboard never opens the file chooser nor touches the file system, a
    call for a file never reads the clipboard, and a file is read only
    when it is the chosen one and GetFileSize did not report the limit. *)
Theorem gotoLoadPSBT_sources (E : Env) (from_clipboard : bool) (s : State) :
  ∃ evs, gotoLoadPSBT E from_clipboard s = Ok tt s evs ∧
    (from_clipboard = true → count is_file_system evs = 0%nat) ∧
    (from_clipboard = false → count is_clipboard evs = 0%nat) ∧
    (∀ path, In (ifstream_read path) evs ↔
       from_clipboard = false ∧ path = getOpenFileName E ∧ path ≠ "" ∧
       GetFileSize (files E) path MAX_FILE_SIZE_PSBT ≠ MAX_FILE_SIZE_PSBT).
Proof.
  assert (Hnoread : ∀ b path, ¬ In (ifstream_read path) (decoded_events s b)).
  { intros b path [Hin|Hin]; [discriminate|].
    destruct (DecodeRawPSBT b); cbn in Hin;
      repeat (destruct Hin as [Hin|Hin]; [discriminate|]); destruct Hin. }
  destruct (gotoLoadPSBT_paths E from_clipboard s)
    as (evs & Hrun & [(-> & Hi & ->)|[(-> & Hi & ->)|[(-> & Hf & ->)|
         [(-> & Hf & Hsz & ->)|(-> & Hf & Hsz & ->)]]]]);
    eexists; (split; [exact Hrun|]).
  - split; [reflexivity|]. split; [discriminate|].
    intros path. split; [|intros [? _]; discriminate].
    intros [Hin|[Hin|[Hin|[]]]]; discriminate.
  - pose proof (decoded_events_counts s (fst (DecodeBase64 (clipboard_text E))))
      as (_ & _ & _ & Hfs).
    split; [intros _; unfold count in *; cbn; exact Hfs|].
    split; [discriminate|].
    intros path. split; [|intros [? _]; discriminate].
    intros [Hin|[Hin|Hin]]; try discriminate. now apply Hnoread in Hin.
  - split; [discriminate|]. split; [reflexivity|].
    intros path. split; [intros [Hin|[]]; discriminate|].
    intros (_ & -> & Hne & _). contradiction.
  - split; [discriminate|]. split; [reflexivity|].
    intros path. split; [intros [Hin|[Hin|[Hin|[]]]]; discriminate|].
    intros (_ & -> & _ & Hne). contradiction.
  - pose proof (decoded_events_counts s (read_ifstream (files E) (getOpenFileName E)))
      as (_ & _ & Hclip & _).
    split; [discriminate|].
    split; [intros _; unfold count in *; cbn; exact Hclip|].
    intros path. split.
    + intros [Hin|[Hin|[Hin|Hin]]]; try discriminate.
      * injection Hin as <-. auto.
      * now apply Hnoread in Hin.
    + intros (_ & -> & _ & _). cbn. auto.
Qed.

Lemma to_qint64_of_signed (a : Z) :
  - 2 ^ 63 ≤ a < 2 ^ 63 → to_qint64 (a mod 2 ^ 64) = a.
Proof.
  intros Ha. destruct (decide (0 ≤ a)) as [Hpos|Hneg].
  - rewrite Z.mod_small by lia. apply to_qint64_small. lia.
  - replace (a mod 2 ^ 64) with (a + 2 ^ 64).
    + rewrite to_qint64_wraps by lia. lia.
    + replace a with ((a + 2 ^ 64) + (-1) * 2 ^ 64) at 2 by lia.
      rewrite Z.mod_add by lia. rewrite Z.mod_small by lia. reflexivity.
Qed.

(** X10: Signed amounts survive the detour through [toULongLong]: when the
    Amount cell of row start holds the signed 64-bit value [a] (so that
    toULongLong gives a modulo 2^64), the one incomingTransaction signal
    carries [a] itself, debits included. *)
Theorem processNewTransaction_amount_roundtrip (parent : QModelIndex)
    (start end_ : Z) (s : State) (wm : WalletModel) (cm : ClientModel)
    (ttm : TransactionTableModel) (a : Z) :
  walletModel (view s) = Some wm → clientModel (view s) = Some cm →
  isInitialBlockDownload (node cm) = false →
  getTransactionTableModel wm = Some ttm →
  processingQueuedTransactions ttm = false →
  - 2 ^ 63 ≤ a < 2 ^ 63 →
  toULongLong (data ttm (index ttm start TransactionTableModel_Amount parent) Qt_EditRole)
    = a mod 2 ^ 64 →
  ∃ e, processNewTransaction parent start end_ s = Ok tt s [e] ∧
       amount_of e = Some a.
Proof.
  intros Hwm Hcm Hibd Httm Hq Ha Hcell.
  unfold processNewTransaction, QModelIndex_data. run.
  rewrite Hwm, Hcm, Hibd, Httm, Hq, Hcell.
  eexists. split; [reflexivity|]. cbn. now rewrite to_qint64_of_signed.
Qed.

Lemma ready_same (s s' : State) :
  walletModel (view s') = walletModel (view s) →
  progressDialog (view s') = progressDialog (view s) →
  dialogs s' = dialogs s →
  ready s → ready s'.
Proof.
  intros Hwm Hp Hd [Hm Hlive]. split; [now rewrite Hwm|].
  intros p Hq. rewrite Hd. apply Hlive. now rewrite <- Hp.
Qed.

Lemma lift_ok {A} (m : M A) (s s' : State) (a : A) (evs : list Event) :
  m s = Ok a s' evs → lift m s = OkW a s' (slot_event <$> evs).
Proof. intros Hm. unfold lift. now rewrite Hm. Qed.

Lemma lift_inv {A} (m : M A) (s s' : State) (a : A) (evs : list Wiring) :
  lift m s = OkW a s' evs → ∃ evs', m s = Ok a s' evs' ∧ evs = slot_event <$> evs'.
Proof.
  unfold lift. destruct (m s) as [a' s1 e1|f]; [|discriminate].
  intros [= -> -> <-]. eauto.
Qed.

(** Slots that read the state and return it as it was. *)
Ltac returns_same :=
  eexists _, _; split; [reflexivity | assumption].

Lemma perform_ready (a : Action) (s : State) :
  ready s → keeps_model a →
  ∃ s' evs, perform a s = OkW tt s' evs ∧ ready s'.
Proof.
  intros Hready Hkeep.
  assert (Hshows : ∀ w, ready (shows w s)).
  { intros w. now apply (ready_same s). }
  pose proof Hready as [[wm Hwm] Hlive].
  destruct a; cbn [perform].
  - (* setClientModel *)
    unfold setClientModel. runW. rewrite Hwm.
    eexists _, _. split; [reflexivity|]. now apply (ready_same s).
  - (* setWalletModel *)
    destruct wm0 as [wm'|]; [|now destruct Hkeep].
    unfold setWalletModel, updateEncryptionStatus. runW.
    eexists _, _. split; [reflexivity|]. split; [cbn; eauto | exact Hlive].
  - unfold processNewTransaction. runW. rewrite Hwm.
    destruct (clientModel (view s)) as [cm|]; [|returns_same].
    destruct (isInitialBlockDownload (node cm)); [returns_same|].
    destruct (getTransactionTableModel wm) as [ttm|]; [|returns_same].
    destruct (processingQueuedTransactions ttm); returns_same.
  - eexists _, _. split; [reflexivity | apply Hshows].
  - eexists _, _. split; [reflexivity | apply Hshows].
  - returns_same.
  - eexists _, _. split; [reflexivity | apply Hshows].
  - eexists _, _. split; [reflexivity | apply Hshows].
  - eexists _, _. split; [reflexivity | apply Hshows].
  - eexists _, _. split; [reflexivity | apply Hshows].
  - eexists _, _. split; [reflexivity | apply Hshows].
  - unfold gotoReceiveCoinsPage. runW.
    destruct (is_current_view _); eexists _, _; (split; [reflexivity | apply Hshows]).
  - unfold gotoSendCoinsPage. runW.
    destruct (is_current_view _); [destruct (bool_decide (addr = ""))|];
      eexists _, _; (split; [reflexivity | apply Hshows]).
  - unfold gotoSignMessageTab. runW.
    destruct (bool_decide (addr = "")); returns_same.
  - eexists _, _. split; [reflexivity | apply Hshows].
  - unfold gotoVerifyMessageTab. runW.
    destruct (bool_decide (addr = "")); returns_same.
  - destruct (gotoLoadPSBT_paths E from_clipboard s) as (evs & Hrun & _).
    rewrite (lift_ok _ _ _ _ _ Hrun). returns_same.
  - returns_same.
  - returns_same.
  - unfold encryptWallet, updateEncryptionStatus. runW. rewrite Hwm. returns_same.
  - destruct (decide (getSaveFileName E = "")) as [Hf|Hf].
    + rewrite (lift_ok _ _ _ _ _ (backupWallet_no_file E s Hf)). returns_same.
    + rewrite (lift_ok _ _ _ _ _ (backupWallet_with_file E s wm Hf Hwm)).
      returns_same.
  - returns_same.
  - unfold unlockWallet. runW. rewrite Hwm.
    destruct (getEncryptionStatus wm); returns_same.
  - unfold lockWallet. runW. rewrite Hwm. returns_same.
  - unfold usedSendingAddresses. runW. rewrite Hwm. returns_same.
  - unfold usedReceivingAddresses. runW. rewrite Hwm. returns_same.
  - destruct (showProgress_ready title nProgress s Hready) as (s' & evs & Hrun & Hr).
    rewrite (lift_ok _ _ _ _ _ Hrun). eauto.
  - eexists _, _. split; [reflexivity|]. split; [cbn; eauto|].
    intros q Hq. cbn in *. rewrite lookup_alter.
    destruct (Hlive q Hq) as [d Hd].
    case_decide; [subst p|]; rewrite Hd; cbn; eauto.
Qed.

(** X12: No action of a ready view can go wrong: from a state whose wallet
    model is set and whose progress pointer is null or live, every
    sequence of calls and Cancel presses that does not reset the wallet
    model to null returns, and the state it ends in is again ready. *)
Theorem perform_all_ready (acts : list Action) (s : State) :
  ready s → Forall keeps_model acts →
  ∃ s' evs, perform_all acts s = OkW tt s' evs ∧ ready s'.
Proof.
  intros Hready Hkeep. revert s Hready.
  induction Hkeep as [|a acts Ha Hacts IH]; intros s Hready.
  - eexists _, _. split; [reflexivity | exact Hready].
  - destruct (perform_ready a s Hready Ha) as (s1 & e1 & Hstep & Hr1).
    destruct (IH s1 Hr1) as (s2 & e2 & Hrest & Hr2).
    exists s2, (e1 ++ e2). split; [|exact Hr2].
    cbn [perform_all]. change (bindW (perform a) (λ _, perform_all acts) s
                               = OkW () s2 (e1 ++ e2)).
    unfold bindW. now rewrite Hstep, Hrest.
Qed.

Lemma bindW_inv {A B} (m : MW A) (k : A → MW B) (s s' : State) (b : B)
    (evs : list Wiring) :
  bindW m k s = OkW b s' evs →
  ∃ a s1 e1 e2, m s = OkW a s1 e1 ∧ k a s1 = OkW b s' e2 ∧ evs = e1 ++ e2.
Proof.
  unfold bindW. destruct (m s) as [a s1 e1|f]; [|discriminate].
  destruct (k a s1) as [b' s2 e2|f] eqn:Hk; [|discriminate].
  intros [= -> -> <-]. eauto 8.
Qed.

Lemma backupWallet_state (E : Env) (s s' : State) (evs : list Event) :
  backupWallet E s = Ok tt s' evs → s' = s.
Proof.
  destruct (decide (getSaveFileName E = "")) as [Hf|Hf].
  - rewrite (backupWallet_no_file E s Hf). congruence.
  - destruct (walletModel (view s)) as [wm|] eqn:Hwm.
    + rewrite (backupWallet_with_file E s wm Hf Hwm). congruence.
    + unfold backupWallet. run. rewrite (bool_decide_eq_false_2 _ Hf), Hwm.
      discriminate.
Qed.

Lemma perform_members (a : Action) (s s' : State) (evs : list Wiring) :
  perform a s = OkW tt s' evs → members_step a (view s) (view s').
Proof.

  unfold members_step.
  destruct a; cbn [perform nav_target default];
    try (intros Hrun; apply lift_inv in Hrun as (evs' & Hrun & _)).
  - unfold setClientModel. runW. destruct (walletModel (view s)) eqn:Hw;
      intros [= <- _]; cbn; auto.
  - unfold setWalletModel, updateEncryptionStatus. runW. destruct wm;
      intros [= <- _]; cbn; auto.
  - revert Hrun. unfold processNewTransaction. run.
    repeat case_match; intros; simplify_eq; cbn; auto.
  - injection Hrun as <- _. cbn. auto.
  - injection Hrun as <- _. cbn. auto.
  - injection Hrun as <- _. cbn. auto.
  - injection Hrun as <- _. cbn. auto.
  - injection Hrun as <- _. cbn. auto.
  - injection Hrun as <- _. cbn. auto.
  - injection Hrun as <- _. cbn. auto.
  - injection Hrun as <- _. cbn. auto.
  - revert Hrun. unfold gotoReceiveCoinsPage. run.
    repeat case_match; intros; simplify_eq; cbn; auto.
  - revert Hrun. unfold gotoSendCoinsPage. run.
    repeat case_match; intros; simplify_eq; cbn; auto.
  - unfold gotoSignMessageTab. runW. repeat case_match; intros; simplify_eq; cbn; auto.
  - unfold gotoSetupTab. runW. intros [= <- _]. cbn. auto.
  - unfold gotoVerifyMessageTab. runW. repeat case_match; intros; simplify_eq; cbn; auto.
  - destruct (gotoLoadPSBT_paths E from_clipboard s) as (evs0 & Hrun0 & _).
    rewrite Hrun0 in Hrun. injection Hrun as <- _. auto.
  - unfold showOutOfSyncWarning. runW. intros [= <- _]. auto.
  - injection Hrun as <- _. auto.
  - revert Hrun. unfold encryptWallet, updateEncryptionStatus. run.
    repeat case_match; intros; simplify_eq; cbn; auto.
  - apply backupWallet_state in Hrun as ->. auto.
  - injection Hrun as <- _. auto.
  - revert Hrun. unfold unlockWallet. run.
    repeat case_match; intros; simplify_eq; cbn; auto.
  - revert Hrun. unfold lockWallet. run.
    repeat case_match; intros; simplify_eq; cbn; auto.
  - revert Hrun. unfold usedSendingAddresses. run.
    repeat case_match; intros; simplify_eq; cbn; auto.
  - revert Hrun. unfold usedReceivingAddresses. run.
    repeat case_match; intros; simplify_eq; cbn; auto.
  - destruct (showProgress_inv _ _ _ _ _ Hrun); cbn; auto.
  - intros [= <- _]. cbn. auto.
Qed.

(** X13: The members after any sequence of actions can be read off the
    sequence: no action writes [this] or [walletFrame], the two models are
    the arguments of the last setter calls, and the current widget is the
    page of the last navigation, whatever else was called in between. *)
Theorem perform_all_members (acts : list Action) (s s' : State) (evs : list Wiring) :
  perform_all acts s = OkW tt s' evs →
  this (view s') = this (view s) ∧
  walletFrame (view s') = walletFrame (view s) ∧
  walletModel (view s') = walletModel_after acts (walletModel (view s)) ∧
  clientModel (view s') = clientModel_after acts (clientModel (view s)) ∧
  currentWidget (view s') = page_after acts (currentWidget (view s)).
Proof.
  revert s evs. induction acts as [|a acts IH]; intros s evs Hrun.
  - injection Hrun as <- _. auto.
  - apply bindW_inv in Hrun as ([] & s1 & e1 & e2 & Hstep & Hrest & _).
    apply perform_members in Hstep as (Ht & Hf & Hw & Hc & Hp).
    apply IH in Hrest as (Ht' & Hf' & Hw' & Hc' & Hp').
    unfold walletModel_after, clientModel_after, page_after in *.
    cbn [fold_left]. rewrite Ht', Hf', Hw', Hc', Hp', Ht, Hf, Hw, Hc, Hp.
    auto.
Qed.

(** X14: [setWalletModel] with a model: the member is written, the two
    signals encryptionStatusChanged and hdEnabledStatusChanged are emitted
    once each in that order, the five connections are made on that model
    and its transaction table, and a view whose progress pointer was null
    or live is ready afterwards. *)
Theorem setWalletModel_installs (wm : WalletModel) (s : State) :
  ∃ evs,
    setWalletModel (Some wm) s
      = OkW tt {| view := set_walletModel (Some wm) (view s); dialogs := dialogs s |} evs ∧
    List.filter is_signal evs
      = [slot_event encryptionStatusChanged; hdEnabledStatusChanged] ∧
    List.filter is_connect evs
      = [connect (WalletModel_message wm);
         connect (WalletModel_encryptionStatusChanged wm);
         connect (TransactionTableModel_rowsInserted (getTransactionTableModel wm));
         connect (WalletModel_requireUnlock wm);
         connect (WalletModel_showProgress wm)] ∧
    In (AddressBookPage_setModel usedReceivingAddressesPage
          (Some (addressTableModel_of wm))) evs ∧
    In (AddressBookPage_setModel usedSendingAddressesPage
          (Some (addressTableModel_of wm))) evs ∧
    (progressDialog_live s →
     ready {| view := set_walletModel (Some wm) (view s); dialogs := dialogs s |}).
Proof.
  unfold setWalletModel, updateEncryptionStatus. runW.
  eexists. split; [reflexivity|]. cbn.
  split; [reflexivity|]. split; [reflexivity|].
  split; [tauto|]. split; [tauto|].
  intros Hlive. split; [cbn; eauto | exact Hlive].
Qed.

(** X15: [setWalletModel(nullptr)]: no connection is made and no signal is
    emitted, the address books lose their table, and the view is back
    where the guarded slots do nothing and backupWallet with a chosen file
    dereferences null. *)
Theorem setWalletModel_null_resets (s : State) :
  ∃ s' evs,
    setWalletModel None s = OkW tt s' evs ∧
    walletModel (view s') = None ∧
    count_wiring is_connect evs = 0%nat ∧
    count_wiring is_signal evs = 0%nat ∧
    In (AddressBookPage_setModel usedReceivingAddressesPage None) evs ∧
    In (AddressBookPage_setModel usedSendingAddressesPage None) evs ∧
    encryptWallet s' = Ok tt s' [] ∧
    unlockWallet s' = Ok tt s' [] ∧
    lockWallet s' = Ok tt s' [] ∧
    ∀ E, getSaveFileName E ≠ "" → backupWallet E s' = Crash NullDereference.
Proof.
  unfold setWalletModel. runW.
  eexists _, _. split; [reflexivity|]. cbn.
  repeat (split; [tauto || reflexivity|]).
  intros E Hf. unfold backupWallet. run.
  now rewrite (bool_decide_eq_false_2 _ Hf).
Qed.

(** X16: [setClientModel] tells the wallet model only when one is set at the
    time of the call, so the two setters commute on the members but not
    on the calls: whichever order they are called in the view ends in the
    same state, yet the wallet model given second never hears of the
    client model given first. *)
Theorem setters_commute_on_state (cm : option ClientModel)
    (wm : option WalletModel) (s : State) :
  ∃ s' e1 e2,
    perform_all [do_setClientModel cm; do_setWalletModel wm] s = OkW tt s' e1 ∧
    perform_all [do_setWalletModel wm; do_setClientModel cm] s = OkW tt s' e2 ∧
    List.filter is_WalletModel_setClientModel e1
      = match walletModel (view s) with
        | Some old => [WalletModel_setClientModel old cm]
        | None => []
        end ∧
    List.filter is_WalletModel_setClientModel e2
      = match wm with
        | Some new => [WalletModel_setClientModel new cm]
        | None => []
        end.
Proof.
  cbn [perform_all perform].
  unfold setClientModel, setWalletModel, updateEncryptionStatus. runW.
  destruct (walletModel (view s)) as [old|], wm as [new|];
    eexists _, _, _; (split; [reflexivity|]); (split; [reflexivity|]);
    split; reflexivity.
Qed.

(** X17: The two message-dialog slots: every call creates one dialog, marks
    it delete-on-close, hands it walletModel as it is (null included)
    without dereferencing it, shows the tab of its own kind only, and
    sets the address if and only if one was given; the view itself is
    left unchanged. *)
Theorem message_tabs (addr : string) (s : State) :
  (∃ evs, gotoSignMessageTab addr s = OkW tt s evs ∧
     firstn 4 evs = [SignVerifyMessageDialog_new;
                     SignVerifyMessageDialog_setAttribute_WA_DeleteOnClose;
                     SignVerifyMessageDialog_setModel (walletModel (view s));
                     SignVerifyMessageDialog_showTab_SM true] ∧
     skipn 4 evs = (if bool_decide (addr = "") then []
                    else [SignVerifyMessageDialog_setAddress_SM addr]) ∧
     (In (SignVerifyMessageDialog_setAddress_SM addr) evs ↔ addr ≠ "") ∧
     ¬ In (SignVerifyMessageDialog_showTab_VM true) evs) ∧
  (∃ evs, gotoVerifyMessageTab addr s = OkW tt s evs ∧
     firstn 4 evs = [SignVerifyMessageDialog_new;
                     SignVerifyMessageDialog_setAttribute_WA_DeleteOnClose;
                     SignVerifyMessageDialog_setModel (walletModel (view s));
                     SignVerifyMessageDialog_showTab_VM true] ∧
     skipn 4 evs = (if bool_decide (addr = "") then []
                    else [SignVerifyMessageDialog_setAddress_VM addr]) ∧
     (In (SignVerifyMessageDialog_setAddress_VM addr) evs ↔ addr ≠ "") ∧
     ¬ In (SignVerifyMessageDialog_showTab_SM true) evs).
Proof.
  unfold gotoSignMessageTab, gotoVerifyMessageTab. runW.
  destruct (bool_decide (addr = "")) eqn:Ha;
    [apply bool_decide_eq_true in Ha | apply bool_decide_eq_false in Ha];
    split; eexists; (split; [reflexivity|]); cbn;
    (split; [reflexivity|]); (split; [reflexivity|]); split;
    try (split; [intros [Hin|[Hin|[Hin|[Hin|Hin]]]]; try discriminate;
                 try (destruct Hin as [Hin|[]]; try discriminate); tauto
                | tauto]);
    try (intros [Hin|[Hin|[Hin|[Hin|Hin]]]]; try discriminate;
         try (destruct Hin as [Hin|[]]; discriminate); tauto).
Qed.

Lemma lift_crash {A} (m : M A) (s : State) (f : Fault) :
  lift m s = CrashW f ↔ m s = Crash f.
Proof.
  unfold lift. destruct (m s); split; intros Heq; congruence.
Qed.

Lemma showProgress_crash_iff (title : string) (nProgress : Z) (s : State) (f : Fault) :
  showProgress title nProgress s = Crash f ↔
  goes_wrong (do_showProgress title nProgress) s f.
Proof.
  unfold goes_wrong.
  destruct (decide (nProgress = 0)) as [->|H0].
  { rewrite showProgress_start. split; [discriminate | intros [? _]; contradiction]. }
  destruct (progressDialog (view s)) as [p|] eqn:Hp.
  2:{ rewrite (showProgress_no_dialog title nProgress s H0 Hp).
      split; [discriminate | intros (_ & q & Hq & _); discriminate]. }
  destruct (dialogs s !! p) as [d|] eqn:Hd.
  2:{ rewrite (showProgress_dangling title nProgress s p H0 Hp Hd). split.
      - intros [= <-]. split; [exact H0|]. exists p. auto.
      - intros (_ & q & [= <-] & [[_ ->]|(_ & d & Hq & _)]); congruence. }
  destruct (decide (nProgress = 100)) as [->|H100].
  { rewrite (showProgress_finish title s p d Hp Hd). split; [discriminate|].
    intros (_ & q & [= <-] & [[Hq _]|(Hne & _)]); congruence. }
  destruct (wasCanceled d) eqn:Hc.
  - rewrite (showProgress_abort title nProgress s p d H0 H100 Hp Hd Hc).
    destruct (walletModel (view s)) as [wm|] eqn:Hwm; split.
    + discriminate.
    + intros (_ & q & [= <-] & [[Hq _]|(_ & d' & _ & _ & Hn & _)]); congruence.
    + intros [= <-]. split; [exact H0|]. exists p. split; [reflexivity|].
      right. split; [exact H100|]. exists d. auto.
    + intros (_ & q & [= <-] & [[Hq _]|(_ & d' & _ & _ & _ & ->)]);
        [congruence | reflexivity].
  - rewrite (showProgress_update title nProgress s p d H0 H100 Hp Hd Hc).
    split; [discriminate|].
    intros (_ & q & [= <-] & [[Hq _]|(_ & d' & Hq & Hc' & _)]); congruence.
Qed.

(** X11: Where the class can go wrong, and nowhere else: of all the actions
    only backupWallet and showProgress can dereference a bad pointer,
    backupWallet exactly when a file was chosen while walletModel is
    null, showProgress exactly when its pointer dangles or when a report
    on a cancelled dialog finds walletModel null; every other slot
    returns in every state. *)
Theorem perform_goes_wrong_iff (a : Action) (s : State) (f : Fault) :
  perform a s = CrashW f ↔ goes_wrong a s f.
Proof.
  destruct a; cbn [perform];
    try (rewrite lift_crash);
    try (apply backupWallet_crash_iff);
    try (apply showProgress_crash_iff);
    cbn [goes_wrong]; (split; [|tauto]).
  - unfold setClientModel. runW. repeat case_match; discriminate.
  - unfold setWalletModel, updateEncryptionStatus. runW.
    repeat case_match; discriminate.
  - unfold processNewTransaction. run. repeat case_match; discriminate.
  - discriminate.
  - discriminate.
  - discriminate.
  - discriminate.
  - discriminate.
  - discriminate.
  - discriminate.
  - discriminate.
  - unfold gotoReceiveCoinsPage. run. repeat case_match; discriminate.
  - unfold gotoSendCoinsPage. run. repeat case_match; discriminate.
  - unfold gotoSignMessageTab. runW. repeat case_match; discriminate.
  - discriminate.
  - unfold gotoVerifyMessageTab. runW. repeat case_match; discriminate.
  - destruct (gotoLoadPSBT_paths E from_clipboard s) as (evs & -> & _).
    discriminate.
  - discriminate.
  - discriminate.
  - unfold encryptWallet, updateEncryptionStatus. run.
    repeat case_match; discriminate.
  - discriminate.
  - unfold unlockWallet. run. repeat case_match; discriminate.
  - unfold lockWallet. run. repeat case_match; discriminate.
  - unfold usedSendingAddresses. run. repeat case_match; discriminate.
  - unfold usedReceivingAddresses. run. repeat case_match; discriminate.
  - discriminate.
Qed.

End Coverage.

(** ** The slots run on the concrete desktop *)

Section Runs.
#[local] Existing Instance demo.

(** A clipboard text that is base64 but no transaction gives one error
    message; one that decodes to a transaction opens the dialog on it. *)
Lemma gotoLoadPSBT_decoder_witness :
  (∃ evs,
     gotoLoadPSBT (demo_env "cHNidP8BAA" "" "" ∅) true idle = Ok tt idle evs ∧
     In (DecodeRawPSBT_call "cHNidP8BAA") evs ∧
     List.filter is_message evs
       = [message "Error" ("Unable to decode PSBT" +:+ newline +:+ "Invalid PSBT magic bytes")
            MSG_ERROR] ∧
     count is_PSBTOperationsDialog evs = 0%nat) ∧
  (∃ evs,
     gotoLoadPSBT (demo_env "psbt/8BAA" "" "" ∅) true idle = Ok tt idle evs ∧
     In (DecodeRawPSBT_call "psbt/8BAA") evs ∧
     In (PSBTOperationsDialog_openWithPSBT "psbt/8BAA") evs ∧
     count is_message evs = 0%nat).
Proof.
  split.
  - destruct (gotoLoadPSBT_decoder (demo_env "cHNidP8BAA" "" "" ∅) true idle)
      as (evs & Hrun & Hout & Hclip & _).
    pose proof (Hclip eq_refl eq_refl) as Hcall.
    destruct (Hout _ Hcall) as [(text & Hmsg & _) Hnone].
    exists evs. repeat split; try assumption.
    rewrite Hmsg. vm_compute in Hrun. injection Hrun as <-.
    vm_compute in Hmsg. injection Hmsg as <-. reflexivity.
  - destruct (gotoLoadPSBT_decoder (demo_env "psbt/8BAA" "" "" ∅) true idle)
      as (evs & Hrun & Hout & Hclip & _).
    pose proof (Hclip eq_refl eq_refl) as Hcall.
    destruct (Hout _ Hcall) as [Hdlg Hnone].
    exists evs. repeat split; try assumption.
    apply (proj1 (List.filter_In is_PSBTOperationsDialog _ evs)).
    rewrite Hdlg. right. left. reflexivity.
Defined.

(** A clipboard text with a blank is refused before the decoder runs. *)
Lemma gotoLoadPSBT_invalid_base64_witness :
  snd (DecodeBase64 (clipboard_text (demo_env "cHNi dP8BAA" "" "" ∅))) = true ∧
  ∃ evs,
    gotoLoadPSBT (demo_env "cHNi dP8BAA" "" "" ∅) true idle = Ok tt idle evs ∧
    evs = [QClipboard_text; DecodeBase64_call "cHNi dP8BAA";
           message "Error" "Unable to decode PSBT from clipboard (invalid base64)"
             MSG_ERROR] ∧
    List.filter is_message evs
      = [message "Error" "Unable to decode PSBT from clipboard (invalid base64)" MSG_ERROR] ∧
    count is_DecodeRawPSBT evs = 0%nat ∧
    count is_PSBTOperationsDialog evs = 0%nat ∧
    count is_AskPassphraseDialog evs = 0%nat.
Proof.
  split; [reflexivity|].
  apply (gotoLoadPSBT_invalid_base64 (demo_env "cHNi dP8BAA" "" "" ∅) idle).
  reflexivity.
Defined.

(** A file of 100 MiB is refused unread; a cancelled chooser does nothing. *)
Lemma gotoLoadPSBT_file_gate_witness :
  let E := demo_env "" "/tmp/big.psbt" "" {[ "/tmp/big.psbt" := big_file ]} in
  (getOpenFileName E ≠ "" ∧
   files E !! getOpenFileName E = Some big_file ∧
   MAX_FILE_SIZE_PSBT ≤ file_size big_file) ∧
  (∃ evs,
     gotoLoadPSBT E false idle = Ok tt idle evs ∧
     List.filter is_message evs
       = [message "Error" "PSBT file must be smaller than 100 MiB" MSG_ERROR] ∧
     count is_ifstream_read evs = 0%nat ∧
     count is_DecodeRawPSBT evs = 0%nat ∧
     count is_PSBTOperationsDialog evs = 0%nat) ∧
  getOpenFileName (demo_env "" "" "" ∅) = "" ∧
  gotoLoadPSBT (demo_env "" "" "" ∅) false idle = Ok tt idle [chooser_event].
Proof.
  intros E.
  assert (Hname : getOpenFileName E ≠ "") by discriminate.
  assert (Hfile : files E !! getOpenFileName E = Some big_file) by reflexivity.
  assert (Hsize : MAX_FILE_SIZE_PSBT ≤ file_size big_file) by (vm_compute; discriminate).
  split; [auto|]. split.
  - exact (proj1 (gotoLoadPSBT_file_gate E idle) big_file Hname Hfile Hsize).
  - split; [reflexivity|].
    exact (proj1 (proj2 (gotoLoadPSBT_file_gate (demo_env "" "" "" ∅) idle) eq_refl)).
Defined.

(** A new row is announced once the node is in sync, and not before. *)
Lemma processNewTransaction_signal_witness :
  let syncing := demo_state (Some (demo_walletModel Unlocked true (Some (demo_ttm false))))
                            (Some (demo_clientModel true)) None in
  (¬ suppressed (view (wallet_ready Unlocked true)) ∧
   processNewTransaction (0, 0) 0 0 (wallet_ready Unlocked true)
     = Ok tt (wallet_ready Unlocked true)
         [incomingTransaction "11/2/26 16:51" 0 250000000 "Received with"
            "SNodeAddr1" "rent &lt;May&gt;" "main &amp; spare"]) ∧
  (suppressed (view syncing) ∧
   processNewTransaction (0, 0) 0 0 syncing = Ok tt syncing []).
Proof.
  intros syncing.
  assert (Hn : ¬ suppressed (view (wallet_ready Unlocked true))).
  { intros [H|[H|[(cm & Hcm & H)|(wm & Hwm & [H|(ttm & Httm & H)])]]];
      try discriminate.
    - injection Hcm as <-. discriminate.
    - injection Hwm as <-. discriminate.
    - injection Hwm as <-. injection Httm as <-. discriminate. }
  assert (Hs : suppressed (view syncing)).
  { right. right. left. eexists. split; reflexivity. }
  split; split; [exact Hn | | exact Hs |].
  - destruct (proj2 (processNewTransaction_signal (X:=demo) (0, 0) 0 0
                       (wallet_ready Unlocked true)) Hn)
      as (wm & ttm & Hwm & Httm & Hrun).
    injection Hwm as <-. injection Httm as <-. exact Hrun.
  - exact (proj1 (processNewTransaction_signal (X:=demo) (0, 0) 0 0 syncing) Hs).
Defined.

(** A backup the wallet refuses, with the model set. *)
Lemma backupWallet_with_model_witness :
  (getSaveFileName (demo_env "" "" "w.dat" ∅) ≠ "" →
   is_Some (walletModel (view (wallet_ready Unlocked false)))) ∧
  backupWallet_spec (demo_env "" "" "w.dat" ∅) (wallet_ready Unlocked false).
Proof.
  assert (Hm : getSaveFileName (demo_env "" "" "w.dat" ∅) ≠ "" →
               is_Some (walletModel (view (wallet_ready Unlocked false))))
    by (intros _; eexists; reflexivity).
  split; [exact Hm|].
  exact (backupWallet_with_model _ _ Hm).
Defined.

Example backupWallet_null_model_run :
  backupWallet (demo_env "" "" "w.dat" ∅) idle = Crash NullDereference.
Proof. reflexivity. Qed.

(** With a file name chosen and walletModel null, line 380 dereferences
    the null pointer: no call of wallet().backupWallet is made. *)
Lemma backupWallet_null_model_counterexample :
  ¬ backupWallet_spec (demo_env "" "" "w.dat" ∅) idle.
Proof.
  intros [_ H]. destruct H as (evs & Hrun & _); [discriminate|].
  vm_compute in Hrun. discriminate.
Qed.

(** A cancelled rescan at 50 percent, with the model set. *)
Lemma showProgress_protocol_witness :
  let s := demo_rescan (Some (demo_walletModel Unlocked true None)) true in
  (reaches_wallet 50 s → is_Some (walletModel (view s))) ∧
  showProgress_spec "Rescanning..." 50 s.
Proof.
  intros s.
  assert (Hm : reaches_wallet 50 s → is_Some (walletModel (view s)))
    by (intros _; eexists; reflexivity).
  split; [exact Hm|].
  exact (showProgress_protocol "Rescanning..." 50 s Hm).
Defined.

Example showProgress_null_model_run :
  showProgress "Rescanning..." 50 (demo_rescan None true) = Crash NullDereference.
Proof. reflexivity. Qed.

(** A cancelled dialog at 50 percent with walletModel null: line 451
    dereferences the result of getWalletModel() and abortRescan is not
    called although the dialog was cancelled. *)
Lemma showProgress_null_model_counterexample :
  ¬ showProgress_spec "Rescanning..." 50 (demo_rescan None true).
Proof.
  intros (_ & _ & H & _).
  destruct H as [_ H]; [discriminate | discriminate |].
  destruct (H 7%positive (demo_dialog true) eq_refl eq_refl)
    as (s' & evs & Hrun & _).
  vm_compute in Hrun. discriminate.
Qed.

(** The view before any model is set. *)
Lemma null_walletModel_guards_witness :
  walletModel (view idle) = None ∧
  encryptWallet idle = Ok tt idle [] ∧
  unlockWallet idle = Ok tt idle [] ∧
  lockWallet idle = Ok tt idle [] ∧
  usedSendingAddresses idle = Ok tt idle [] ∧
  usedReceivingAddresses idle = Ok tt idle [] ∧
  ∀ E, getSaveFileName E ≠ "" → backupWallet E idle = Crash NullDereference.
Proof.
  split; [reflexivity|].
  apply (null_walletModel_guards idle). reflexivity.
Defined.

(** A locked wallet gets the passphrase dialog. *)
Lemma unlockWallet_iff_locked_witness :
  locked_wallet (view (wallet_ready Locked true)) ∧
  ∃ evs, unlockWallet (wallet_ready Locked true) = Ok tt (wallet_ready Locked true) evs ∧
         In (AskPassphraseDialog_new Unlock) evs.
Proof.
  assert (Hl : locked_wallet (view (wallet_ready Locked true)))
    by (eexists; split; reflexivity).
  split; [exact Hl|].
  destruct (unlockWallet_iff_locked (wallet_ready Locked true))
    as (evs & Hrun & Hnew & _).
  exists evs. split; [exact Hrun|]. apply Hnew, Hl.
Defined.

(** The current view of the frame opens the send dialog on the address. *)
Lemma send_receive_shown_in_frame_witness :
  (shown_in_frame (view (wallet_ready Unlocked true)) ∧ "SNodeAddr1" ≠ "") ∧
  (∃ s', gotoSendCoinsPage "SNodeAddr1" (wallet_ready Unlocked true)
           = Ok tt s' [SendCoinsDialog_setAddress "SNodeAddr1"; SendCoinsDialog_show] ∧
         currentWidget (view s') = overviewPage) ∧
  (∃ s', gotoReceiveCoinsPage (wallet_ready Unlocked true)
           = Ok tt s' [ReceiveRequestDialog_show] ∧
         currentWidget (view s') = overviewPage).
Proof.
  assert (Hin : shown_in_frame (view (wallet_ready Unlocked true)))
    by (eexists; split; reflexivity).
  assert (Haddr : "SNodeAddr1" ≠ "") by discriminate.
  split; [auto|].
  destruct (send_receive_shown_in_frame "SNodeAddr1" (wallet_ready Unlocked true))
    as [(r' & revs & Hrecv & Hrpage & _ & _ & _ & Hrshown & _)
        (s' & evs & Hrun & Hpage & _ & _ & _ & _ & _ & Hshown & _)].
  split.
  - exists s'. rewrite <- (Hshown Hin Haddr). auto.
  - exists r'. rewrite <- (Hrshown Hin). auto.
Defined.

(** A whole rescan: started, cancelled by the user at some point, reported
    at 50 percent (the wallet is told to stop), finished at 100. *)
Example rescan_cancelled_run :
  let s0 := wallet_ready Unlocked true in
  let r1 := showProgress "Rescanning..." 0 s0 in
  let s1 := user_cancels 1%positive (state_after r1 s0) in
  let r2 := showProgress "Rescanning..." 50 s1 in
  let r3 := showProgress "Rescanning..." 100 (state_after r2 s1) in
  progressDialog (view (state_after r1 s0)) = Some 1%positive ∧
  events_of r1 = Some [] ∧
  events_of r2 = Some [Wallet_abortRescan] ∧
  events_of r3 = Some [] ∧
  progressDialog (view (state_after r3 s1)) = None ∧
  (closed <$> dialogs (state_after r3 s1) !! 1%positive) = Some true.
Proof. vm_compute. repeat split. Qed.

(** An uncancelled rescan only moves the bar. *)
Example rescan_progress_run :
  let s0 := wallet_ready Unlocked true in
  let s1 := state_after (showProgress "Rescanning..." 0 s0) s0 in
  let r2 := showProgress "Rescanning..." 50 s1 in
  events_of r2 = Some [] ∧
  (value <$> dialogs (state_after r2 s1) !! 1%positive) = Some 50.
Proof. vm_compute. repeat split. Qed.

End Runs.

(** ** The further properties on the concrete desktop *)

Section MoreRuns.
#[local] Existing Instance demo.

(** A report at 50 percent keeps the pointer of a running rescan live. *)
Lemma showProgress_keeps_live_witness :
  let s := demo_rescan None false in
  progressDialog_live s ∧
  (∃ s', showProgress "Rescanning..." 50 s = Ok tt s' [] ∧ progressDialog_live s').
Proof.
  intros s.
  assert (Hlive : progressDialog_live s).
  { intros p [= <-]. eexists. reflexivity. }
  split; [exact Hlive|].
  eexists. split; [reflexivity|].
  exact (showProgress_keeps_live "Rescanning..." 50 s _ [] Hlive eq_refl).
Defined.

(** The same report leaves the members and the other dialogs alone. *)
Lemma showProgress_frame_witness :
  let s := demo_rescan None false in
  ∃ s', showProgress "Rescanning..." 50 s = Ok tt s' [] ∧
        walletModel (view s') = walletModel (view s) ∧
        currentWidget (view s') = currentWidget (view s) ∧
        dom (dialogs s) ⊆ dom (dialogs s').
Proof.
  intros s. eexists. split; [reflexivity|].
  destruct (showProgress_frame "Rescanning..." 50 s _ [] eq_refl)
    as ((_ & _ & Hwm & _ & Hcur) & Hdom & _).
  auto.
Defined.

(** Restarting over the dialog at address 7 leaves it behind, open. *)
Lemma showProgress_restart_leaks_witness :
  let s := demo_rescan None false in
  (progressDialog (view s) = Some 7%positive ∧
   dialogs s !! 7%positive = Some (demo_dialog false)) ∧
  ∃ p' s', showProgress "Again" 0 s = Ok tt s' [] ∧
           progressDialog (view s') = Some p' ∧ p' ≠ 7%positive ∧
           dialogs s' !! 7%positive = Some (demo_dialog false).
Proof.
  intros s. split; [split; reflexivity|].
  exact (showProgress_restart_leaks "Again" s 7%positive (demo_dialog false)
           eq_refl eq_refl).
Defined.

(** Start and first report on a view that has no wallet model at all,
    and the same report after a Cancel. *)
Lemma showProgress_start_then_report_witness :
  (50 ≠ 0 ∧ 50 ≠ 100) ∧
  ∃ p d s1 s2,
    showProgress "Rescanning..." 0 idle = Ok tt s1 [] ∧
    showProgress "Rescanning..." 50 s1 = Ok tt s2 [] ∧
    progressDialog (view s2) = Some p ∧
    dialogs s2 !! p = Some d ∧ value d = 50 ∧ wasCanceled d = false ∧
    ∃ s1c,
      perform (user_presses_cancel p) s1 = OkW tt s1c [] ∧
      showProgress "Rescanning..." 50 s1c = Crash NullDereference.
Proof.
  assert (H0 : 50 ≠ 0) by discriminate.
  assert (H100 : 50 ≠ 100) by discriminate.
  split; [auto|].
  exact (showProgress_start_then_report "Rescanning..." "Rescanning..." 50 idle H0 H100).
Defined.

(** The end of a rescan, reported twice. *)
Lemma showProgress_finish_idempotent_witness :
  let s := demo_rescan None false in
  ∃ s1, showProgress "Rescanning..." 100 s = Ok tt s1 [] ∧
        progressDialog (view s1) = None ∧
        showProgress "Rescanning..." 100 s1 = Ok tt s1 [].
Proof.
  intros s. eexists. split; [reflexivity|].
  exact (showProgress_finish_idempotent "Rescanning..." "Rescanning..." s _ [] eq_refl).
Defined.


(** A payment of 1.5 coins is announced as -150000000. *)
Lemma processNewTransaction_amount_roundtrip_witness :
  (- 2 ^ 63 ≤ -150000000 < 2 ^ 63 ∧
   toULongLong (data demo_debit_ttm
                  (index demo_debit_ttm 0 TransactionTableModel_Amount (0, 0))
                  Qt_EditRole) = -150000000 mod 2 ^ 64) ∧
  ∃ e, processNewTransaction (0, 0) 0 0 demo_debit_state = Ok tt demo_debit_state [e] ∧
       amount_of e = Some (-150000000).
Proof.
  assert (Ha : - 2 ^ 63 ≤ -150000000 < 2 ^ 63) by lia.
  assert (Hcell : toULongLong (data demo_debit_ttm
                    (index demo_debit_ttm 0 TransactionTableModel_Amount (0, 0))
                    Qt_EditRole) = -150000000 mod 2 ^ 64) by reflexivity.
  split; [auto|].
  exact (processNewTransaction_amount_roundtrip (X:=demo) (0, 0) 0 0 demo_debit_state
           _ _ demo_debit_ttm (-150000000) eq_refl eq_refl eq_refl eq_refl eq_refl
           Ha Hcell).
Defined.

(** The session returns and leaves the view ready. *)
Lemma perform_all_ready_witness :
  ready (wallet_ready Unlocked true) ∧ Forall keeps_model demo_session ∧
  ∃ s' evs, perform_all demo_session (wallet_ready Unlocked true) = OkW tt s' evs ∧
            ready s'.
Proof.
  assert (Hready : ready (wallet_ready Unlocked true)).
  { split; [eexists; reflexivity | intros p [=]]. }
  assert (Hkeep : Forall keeps_model demo_session).
  { repeat constructor; discriminate. }
  split; [exact Hready|]. split; [exact Hkeep|].
  exact (perform_all_ready demo_session (wallet_ready Unlocked true) Hready Hkeep).
Defined.

(** After the session the setup tab's page is current, the client model
    is the null one given last and the wallet model is the one it had. *)
Lemma perform_all_members_witness :
  ∃ s' evs,
    perform_all demo_session (wallet_ready Unlocked true) = OkW tt s' evs ∧
    currentWidget (view s') = infinitynodeListPage ∧
    clientModel (view s') = None ∧
    walletModel (view s') = walletModel (view (wallet_ready Unlocked true)).
Proof.
  assert (Hrun : ∃ s' evs,
            perform_all demo_session (wallet_ready Unlocked true) = OkW tt s' evs).
  { vm_compute. eauto. }
  destruct Hrun as (s' & evs & Hrun). exists s', evs. split; [exact Hrun|].
  destruct (perform_all_members demo_session _ s' evs Hrun)
    as (_ & _ & Hwm & Hcm & Hpage).
  rewrite Hwm, Hcm, Hpage. repeat split.
Defined.

End MoreRuns.
